(** * Document analysis pipeline of [streamlit_ui_v1.py]

    A shallow embedding of the functions [is_scanned_pdf], [insert_document],
    [bedrock_calling], [get_document_class], [get_document_analysis] and
    [process_document], together with the fragment of Python they run on:
    strings as lists of code points, the values [json.loads] produces, and
    exceptions as values.  What the program obtains from outside (the PDF
    library, the inference service, the JSON decoder, the prompt module and
    the clock) is collected in one record, [World]. *)

From Stdlib Require Import ZArith NArith List String Ascii Bool Lia.
From Stdlib Require Import DecimalString.
From Stdlib Require Import Floats.PrimFloat.
From Stdlib Require Import Numbers.Cyclic.Int63.Uint63.
Import ListNotations.

Set Warnings "-register-all".

(* ================================================================= *)
(** ** Python strings *)

Module Py.

(** A [str] is a sequence of Unicode code points. *)
Definition pychar := N.
Definition pystr := list pychar.

(** [py "abc"] is the [str] with the characters of an ASCII literal. *)
Definition py (s : string) : pystr :=
  map N_of_ascii (list_ascii_of_string s).

(** [pyq] reads an ASCII literal in which an apostrophe stands for the
    double quote, so that JSON texts can be written down. *)
Definition pyq (s : string) : pystr :=
  map (fun c => if N.eqb c 39 then 34%N else c) (py s).

Definition newline : pychar := 10%N.
Definition lbrace : pychar := 123%N.
Definition rbrace : pychar := 125%N.

(** [str.isspace] on one character: the code points CPython lists in
    [_PyUnicode_IsWhitespace]. *)
Definition isspace (c : pychar) : bool :=
  ((9 <=? c) && (c <=? 13) || (28 <=? c) && (c <=? 32)
   || (c =? 133) || (c =? 160) || (c =? 5760)
   || (8192 <=? c) && (c <=? 8202)
   || (c =? 8232) || (c =? 8233) || (c =? 8239) || (c =? 8287)
   || (c =? 12288))%N.

Fixpoint lstrip (s : pystr) : pystr :=
  match s with
  | [] => []
  | c :: r => if isspace c then lstrip r else s
  end.

Definition rstrip (s : pystr) : pystr := rev (lstrip (rev s)).

(** [s.strip()] *)
Definition strip (s : pystr) : pystr := rstrip (lstrip s).

(** [len(s)] *)
Definition len (s : pystr) : Z := Z.of_nat (List.length s).

(** Position of the first, and of the last, occurrence of a character. *)
Fixpoint index_of (c : pychar) (s : pystr) : option nat :=
  match s with
  | [] => None
  | x :: r => if N.eqb x c then Some O else option_map S (index_of c r)
  end.

Fixpoint last_index_of (c : pychar) (s : pystr) : option nat :=
  match s with
  | [] => None
  | x :: r =>
      match last_index_of c r with
      | Some i => Some (S i)
      | None => if N.eqb x c then Some O else None
      end
  end.

(** [s.find(c)] and [s.rfind(c)] for a one-character [c]: the index, or -1. *)
Definition find (s : pystr) (c : pychar) : Z :=
  match index_of c s with Some i => Z.of_nat i | None => (-1)%Z end.

Definition rfind (s : pystr) (c : pychar) : Z :=
  match last_index_of c s with Some i => Z.of_nat i | None => (-1)%Z end.

(** How a slice bound is adjusted: a negative bound counts from the end,
    and the result is clipped to [0, len]. *)
Definition adjust_index (n i : Z) : Z :=
  let j := if (i <? 0)%Z then (i + n)%Z else i in
  if (j <? 0)%Z then 0%Z else if (n <? j)%Z then n else j.

(** [s[start:stop]] *)
Definition slice (s : pystr) (start stop : Z) : pystr :=
  let a := adjust_index (len s) start in
  let b := adjust_index (len s) stop in
  firstn (Z.to_nat (b - a)) (skipn (Z.to_nat a) s).

(** [sep.join(parts)] *)
Fixpoint join (sep : pystr) (parts : list pystr) : pystr :=
  match parts with
  | [] => []
  | [x] => x
  | x :: r => x ++ sep ++ join sep r
  end.

(** [str(z)] for an [int]. *)
Definition str_of_int (z : Z) : pystr :=
  py (NilZero.string_of_int (Z.to_int z)).

(* ----------------------------------------------------------------- *)
(** *** Values and exceptions *)

(** The values [json.loads] returns.  A [dict] keeps its insertion order and
    is kept as an association list. *)
Inductive pyval : Type :=
| PyNone
| PyBool (b : bool)
| PyInt (z : Z)
| PyFloat (f : float)
| PyStr (s : pystr)
| PyList (l : list pyval)
| PyDict (d : list (pystr * pyval)).

(** An exception: its class name and [str(e)]. *)
Record exn : Type := Exn { exn_class : string; exn_msg : pystr }.

(** The outcome of an expression that may raise. *)
Definition result (A : Type) : Type := (exn + A)%type.

Definition type_name (v : pyval) : string :=
  match v with
  | PyNone => "NoneType"
  | PyBool _ => "bool"
  | PyInt _ => "int"
  | PyFloat _ => "float"
  | PyStr _ => "str"
  | PyList _ => "list"
  | PyDict _ => "dict"
  end.

Definition no_attribute (v : pyval) (attr : string) : exn :=
  Exn "AttributeError"
      (py ("'" ++ type_name v ++ "' object has no attribute '" ++ attr ++ "'")%string).

Definition not_subscriptable (v : pyval) : exn :=
  Exn "TypeError" (py ("'" ++ type_name v ++ "' object is not subscriptable")%string).

Fixpoint pystr_eqb (a b : pystr) : bool :=
  match a, b with
  | [], [] => true
  | x :: a', y :: b' => N.eqb x y && pystr_eqb a' b'
  | _, _ => false
  end.

(** Lookup in a [dict]. *)
Fixpoint dict_lookup (d : list (pystr * pyval)) (k : pystr) : option pyval :=
  match d with
  | [] => None
  | (k', v) :: r => if pystr_eqb k' k then Some v else dict_lookup r k
  end.

(** [d[k] = v]: the entry is replaced in place, or added at the end. *)
Fixpoint dict_set (d : list (pystr * pyval)) (k : pystr) (v : pyval)
  : list (pystr * pyval) :=
  match d with
  | [] => [(k, v)]
  | (k', v') :: r =>
      if pystr_eqb k' k then (k', v) :: r else (k', v') :: dict_set r k v
  end.

(** [v.get(k)]: only a [dict] has the method; a missing key gives [None]. *)
Definition get (v : pyval) (k : string) : result pyval :=
  match v with
  | PyDict d =>
      inr (match dict_lookup d (py k) with Some x => x | None => PyNone end)
  | _ => inl (no_attribute v "get")
  end.

(** [v[0]] *)
Definition item0 (v : pyval) : result pyval :=
  match v with
  | PyList (x :: _) => inr x
  | PyList [] => inl (Exn "IndexError" (py "list index out of range"))
  | PyStr (c :: _) => inr (PyStr [c])
  | PyStr [] => inl (Exn "IndexError" (py "string index out of range"))
  | PyDict _ => inl (Exn "KeyError" (py "0"))
  | _ => inl (not_subscriptable v)
  end.

(** The receiver of [.find], [.rfind] and the slice must be a [str]. *)
Definition as_str (v : pyval) (attr : string) : result pystr :=
  match v with
  | PyStr s => inr s
  | _ => inl (no_attribute v attr)
  end.

End Py.
Import Py.

(* ================================================================= *)
(** ** The outside world *)

(** A page of an opened PDF: what [page.extract_text()] does on it, which is
    to raise, to find nothing ([None]) or to return the text. *)
Record Page : Type := { extract_text : result (option pystr) }.

(** The module [prompts], which the file imports and does not define. *)
Record Prompts : Type := {
  system_prompt_for_doc_classification : pystr;
  user_prompt_classification : pystr -> pystr;
  user_prompt_poi : pystr -> pystr -> pystr;
  user_prompt_poa : pystr -> pystr -> pystr;
  user_prompt_registration : pystr -> pystr -> pystr;
  user_prompt_ownership : pystr -> pystr -> pystr;
  user_prompt_tax_return : pystr -> pystr -> pystr;
  user_prompt_financial : pystr -> pystr -> pystr;
  system_prompt_for_indentity_doc : pystr;
  system_prompt_for_poa_doc : pystr;
  system_prompt_for_registration_doc : pystr;
  system_prompt_for_ownership_doc : pystr;
  system_prompt_for_tax_return_doc : pystr;
  system_prompt_for_financial_doc : pystr
}.

Record World : Type := {
  prompts : Prompts;
  (** [pdfplumber.open] on the bytes of the upload: it raises, or gives the
      pages. *)
  pdfplumber_open : list Byte.byte -> result (list Page);
  (** Lines 121-155 up to [.read()]: credentials, session, client and
      [invoke_model] with the message [content]; the first argument is the
      number of requests made before this one.  It raises, or gives the text
      of the response body. *)
  invoke_model : nat -> pystr -> result pystr;
  (** [json.loads] *)
  json_loads : pystr -> result pyval;
  (** [datetime.today().strftime('%Y-%m-%d')], read once when the module is
      loaded. *)
  today : pystr;
  (** [datetime.now().strftime("%Y%m%d%H%M%S")] *)
  now_stamp : pystr;
  (** [repr(v)]; it is consulted where the text is not spelled out below:
      floats, lists and dicts, and the quoted form of a [str]. *)
  repr : pyval -> pystr
}.

(** [str(v)], as an f-string formats a value. *)
Definition str_of (w : World) (v : pyval) : pystr :=
  match v with
  | PyNone => py "None"
  | PyBool true => py "True"
  | PyBool false => py "False"
  | PyInt z => str_of_int z
  | PyStr s => s
  | PyFloat _ | PyList _ | PyDict _ => repr w v
  end.

(* ================================================================= *)
(** ** State and effects *)

(** What a run leaves behind, in order: the Streamlit widgets it writes and
    the calls it makes on the inference client.  [InvokeModel content] is
    written when [bedrock_calling] starts a call with the message
    [content]. *)
Inductive event : Type :=
| StError (msg : pystr)
| StStatus (label : pystr)
| StatusUpdate (label : pystr)
| StExpander (label : pystr)
| StTextArea (label value : pystr)
| InvokeModel (content : pystr).

Record state : Type := {
  processing : bool;        (* st.session_state.processing *)
  log : list event
}.

Definition is_invoke (e : event) : bool :=
  match e with InvokeModel _ => true | _ => false end.

(** The calls on the inference client so far.  Every request that is sent
    is among them; a call that fails before line 148 is among them too. *)
Definition requests (s : state) : list event := filter is_invoke (log s).

(** A computation reads and writes the state and returns or raises. *)
Definition M (A : Type) : Type := state -> result A * state.

Definition ret {A} (a : A) : M A := fun s => (inr a, s).
Definition lift {A} (r : result A) : M A := fun s => (r, s).

Definition bind {A B} (m : M A) (k : A -> M B) : M B :=
  fun s =>
    match m s with
    | (inr a, s') => k a s'
    | (inl e, s') => (inl e, s')
    end.

(** [try: m except Exception as e: h e] *)
Definition try_except {A} (m : M A) (h : exn -> M A) : M A :=
  fun s =>
    match m s with
    | (inr a, s') => (inr a, s')
    | (inl e, s') => h e s'
    end.

(** The state after more events. *)
Definition log_append (s : state) (es : list event) : state :=
  {| processing := processing s; log := log s ++ es |}.

Definition emit (e : event) : M unit :=
  fun s => (inr tt, log_append s [e]).

Definition set_processing (b : bool) : M unit :=
  fun s => (inr tt, {| processing := b; log := log s |}).

Declare Scope py_scope.
Delimit Scope py_scope with py.
Notation "x <- m ;; k" := (bind m (fun x => k))
  (at level 100, m at next level, right associativity) : py_scope.
Notation "m ;;; k" := (bind m (fun _ => k))
  (at level 100, right associativity) : py_scope.
Open Scope py_scope.

(* ================================================================= *)
(** ** Dictionaries keyed by small integers *)

(** [v == k] for an [int] key [k] of the two prompt tables (0 to 5, which
    a float represents exactly). *)
Definition equals_int (v : pyval) (k : Z) : bool :=
  match v with
  | PyBool b => Z.eqb (if b then 1 else 0) k
  | PyInt z => Z.eqb z k
  | PyFloat f => PrimFloat.eqb f (PrimFloat.of_uint63 (Uint63.of_Z k))
  | PyNone | PyStr _ | PyList _ | PyDict _ => false
  end.

(** A list or a dict cannot be hashed. *)
Definition hashable (v : pyval) : bool :=
  match v with
  | PyList _ | PyDict _ => false
  | _ => true
  end.

Definition unhashable (v : pyval) : exn :=
  Exn "TypeError" (py ("unhashable type: '" ++ type_name v ++ "'")%string).

(** The entry of [d] whose key equals [v], as [v in d] and [d[v]] look it
    up: hashing [v] comes first and may raise. *)
Definition dict_find {A} (d : list (Z * A)) (v : pyval) : result (option A) :=
  if hashable v
  then inr (option_map snd (List.find (fun e => equals_int v (fst e)) d))
  else inl (unhashable v).

(* ================================================================= *)
(** ** The program *)

Section Program.

Variable w : World.

(** Lines 75-79: the loop over the pages to check. *)
Fixpoint sampled_text (pages : list Page) (text_content : pystr)
  : result pystr :=
  match pages with
  | [] => inr text_content
  | page :: rest =>
      match extract_text page with
      | inl e => inl e
      | inr (Some ((_ :: _) as text)) =>
          sampled_text rest (text_content ++ text)
      | inr _ => sampled_text rest text_content
      end
  end.

(** The body of the [try] of [is_scanned_pdf]; it writes nothing. *)
Definition scan_check (pdf_file : list Byte.byte) : result bool :=
  match pdfplumber_open w pdf_file with
  | inl e => inl e
  | inr pdf =>
      if Nat.eqb (List.length pdf) 0 then inr true
      else
        let pages_to_check := Nat.min 3 (List.length pdf) in
        match sampled_text (firstn pages_to_check pdf) [] with
        | inl e => inl e
        | inr text_content =>
            if (100 <? len (strip text_content))%Z then inr false
            else inr true
        end
  end.

Definition is_scanned_pdf (pdf_file : list Byte.byte) : M bool :=
  try_except
    (lift (scan_check pdf_file))
    (fun e =>
       emit (StError (py "Error checking PDF: " ++ exn_msg e)) ;;;
       ret true).

Definition insert_document (doc_data : pyval) : pystr :=
  py "doc_" ++ now_stamp w.

(** Lines 158-162: the text between the first opening and the last closing
    brace is what gets decoded. *)
Definition extract_json (response_text : pyval) : result pyval :=
  match as_str response_text "find" with
  | inl e => inl e
  | inr text =>
      let start := find text lbrace in
      let end_ := (rfind text rbrace + 1)%Z in
      json_loads w (slice text start end_)
  end.

(** One call on the inference client: it is recorded, and answered by the
    world for lines 121-155 as a whole.  A failure of lines 121-147
    (credentials, session, client), which sends nothing, is recorded like a
    failure of the service: the log holds every request that is sent, and it
    may hold a call that was not. *)
Definition invoke (content : pystr) : M pystr :=
  fun s =>
    (invoke_model w (List.length (requests s)) content,
     log_append s [InvokeModel content]).

(** The message of a request: [f"{system_prompt} \n\n {prompt_type}"]. *)
Definition message (system_prompt prompt_type : pystr) : pystr :=
  system_prompt ++ [32; newline; newline; 32]%N ++ prompt_type.

(** Lines 155-156: the body is decoded and the text of its first content
    block taken. *)
Definition response_text_of (body : pystr) : result pyval :=
  match json_loads w body with
  | inl e => inl e
  | inr response_body =>
      match get response_body "content" with
      | inl e => inl e
      | inr blocks =>
          match item0 blocks with
          | inl e => inl e
          | inr block => get block "text"
          end
      end
  end.

(** The body of the [try] of [bedrock_calling]. *)
Definition bedrock_try (system_prompt prompt_type pdf_text : pystr)
  : M pyval :=
  let content := message system_prompt prompt_type in
  body <- invoke content ;;
  response_text <- lift (response_text_of body) ;;
  lift (extract_json response_text).

Definition error_dict (msg : pystr) : pyval :=
  PyDict [(py "error", PyStr msg)].

Definition bedrock_calling (system_prompt prompt_type pdf_text : pystr)
  : M pyval :=
  try_except
    (bedrock_try system_prompt prompt_type pdf_text)
    (fun e =>
       emit (StError (py "Error calling Bedrock API: " ++ exn_msg e)) ;;;
       ret (error_dict (exn_msg e))).

Definition get_document_class (pdf_text : pystr) : M pyval :=
  emit (StStatus (py "Classifying document type...")) ;;;
  let classification_prompt :=
    user_prompt_classification (prompts w) pdf_text in
  let system_prompt := system_prompt_for_doc_classification (prompts w) in
  result <- bedrock_calling system_prompt classification_prompt pdf_text ;;
  emit (StatusUpdate (py "Document classification complete!")) ;;;
  ret result.

Definition prompt_mapping : list (Z * (pystr -> pystr -> pystr)) :=
  [ (0, user_prompt_poi (prompts w));
    (1, user_prompt_poa (prompts w));
    (2, user_prompt_registration (prompts w));
    (3, user_prompt_ownership (prompts w));
    (4, user_prompt_tax_return (prompts w));
    (5, user_prompt_financial (prompts w)) ]%Z.

Definition system_prompt_mapping : list (Z * pystr) :=
  [ (0, system_prompt_for_indentity_doc (prompts w));
    (1, system_prompt_for_poa_doc (prompts w));
    (2, system_prompt_for_registration_doc (prompts w));
    (3, system_prompt_for_ownership_doc (prompts w));
    (4, system_prompt_for_tax_return_doc (prompts w));
    (5, system_prompt_for_financial_doc (prompts w)) ]%Z.

(** [d[v]]: a missing key raises [KeyError], whose text is [repr(v)]. *)
Definition subscript {A} (d : list (Z * A)) (v : pyval) : result A :=
  match dict_find d v with
  | inl e => inl e
  | inr (Some a) => inr a
  | inr None =>
      inl (Exn "KeyError"
             (match v with PyStr _ => repr w v | _ => str_of w v end))
  end.

Definition invalid_class (doc_class : pyval) : pystr :=
  py "Invalid document class: " ++ str_of w doc_class.

Definition get_document_analysis (doc_class : pyval) (pdf_text : pystr)
  : M pyval :=
  emit (StStatus (py "Generating document analysis...")) ;;;
  found <- lift (dict_find prompt_mapping doc_class) ;;
  match found with
  | None =>
      emit (StError (invalid_class doc_class)) ;;;
      ret (error_dict (invalid_class doc_class))
  | Some _ =>
      build <- lift (subscript prompt_mapping doc_class) ;;
      let user_prompt := build pdf_text (today w) in
      system_prompt <- lift (subscript system_prompt_mapping doc_class) ;;
      result <- bedrock_calling system_prompt user_prompt pdf_text ;;
      emit (StatusUpdate (py "Document analysis complete!")) ;;;
      ret result
  end.

(** Line 254: the text of every page, a page without text counting as the
    empty string. *)
Fixpoint page_texts (pages : list Page) : result (list pystr) :=
  match pages with
  | [] => inr []
  | page :: rest =>
      match extract_text page with
      | inl e => inl e
      | inr t =>
          match page_texts rest with
          | inl e => inl e
          | inr ts => inr (match t with Some s => s | None => [] end :: ts)
          end
      end
  end.

Definition scanned_message : pystr :=
  py "This appears to be a scanned document. The current version does not support scanned PDFs.".

Definition process_document (uploaded_file : list Byte.byte) : M pyval :=
  try_except
    (set_processing true ;;;
     let pdf_file := uploaded_file in
     scanned <- is_scanned_pdf pdf_file ;;
     if (scanned : bool) then
       emit (StError scanned_message) ;;;
       set_processing false ;;;
       ret PyNone
     else
       pdf <- lift (pdfplumber_open w pdf_file) ;;
       texts <- lift (page_texts pdf) ;;
       let extracted_text := join [newline] texts in
       emit (StExpander (py "Preview extracted text")) ;;;
       emit (StTextArea (py "Extracted Text") extracted_text) ;;;
       classification_result <- get_document_class extracted_text ;;
       doc_class <- lift (get classification_result "class") ;;
       analysis_result <- get_document_analysis doc_class extracted_text ;;
       document_type <- lift (get classification_result "category") ;;
       let final_response :=
         [(py "document_type", document_type);
          (py "analysis", analysis_result)] in
       let mongo_obj_id := insert_document (PyDict final_response) in
       let final_response :=
         dict_set final_response (py "mongo_obj_id") (PyStr mongo_obj_id) in
       set_processing false ;;;
       ret (PyDict [(py "result", PyDict final_response)]))
    (fun e =>
       emit (StError (py "Error processing document: " ++ exn_msg e)) ;;;
       set_processing false ;;;
       ret PyNone).

End Program.

(* ================================================================= *)
(** ** Vocabulary of the statements *)

(** The part of [text] that [extract_json] hands to the decoder. *)
Definition braced (text : pystr) : pystr :=
  slice text (find text lbrace) (rfind text rbrace + 1).

(** Some opening brace comes before some closing brace. *)
Definition has_brace_pair (text : pystr) : Prop :=
  exists pre mid post, text = pre ++ lbrace :: mid ++ rbrace :: post.

(** What the [try] of [bedrock_calling] comes to when its request is the
    one numbered [n]. *)
Definition answer (w : World) (n : nat) (content : pystr) : result pyval :=
  match invoke_model w n content with
  | inl e => inl e
  | inr body =>
      match response_text_of w body with
      | inl e => inl e
      | inr response_text => extract_json w response_text
      end
  end.

(** The service answers request [n] with a body whose first content block
    has the text [text]. *)
Definition replies_with (w : World) (n : nat) (content text : pystr) : Prop :=
  exists body,
    invoke_model w n content = inr body /\
    response_text_of w body = inr (PyStr text).

(** What [bedrock_calling] returns and writes for that request. *)
Definition call_result (w : World) (n : nat) (content : pystr) : pyval :=
  match answer w n content with
  | inr v => v
  | inl e => error_dict (exn_msg e)
  end.

Definition call_events (w : World) (n : nat) (content : pystr) : list event :=
  InvokeModel content ::
  match answer w n content with
  | inr _ => []
  | inl e => [StError (py "Error calling Bedrock API: " ++ exn_msg e)]
  end.

(** The text of a page, none counting as empty, and pages that can be read
    at all. *)
Definition page_text (p : Page) : pystr :=
  match extract_text p with
  | inr (Some s) => s
  | _ => []
  end.

Definition readable (p : Page) : Prop :=
  exists t, extract_text p = inr t.

Definition readableb (p : Page) : bool :=
  match extract_text p with
  | inr _ => true
  | inl _ => false
  end.

(** [bad] is the first page of [pages] that cannot be read: the pages
    [good] before it can, and reading [bad] raises [e]. *)
Definition first_unreadable (pages good : list Page) (bad : Page) (e : exn)
  : Prop :=
  exists rest,
    pages = good ++ bad :: rest
    /\ Forall readable good
    /\ extract_text bad = inl e.

(** The verdict of [is_scanned_pdf]. *)
Definition scanned (w : World) (pdf_file : list Byte.byte) : bool :=
  match scan_check w pdf_file with
  | inr b => b
  | inl _ => true
  end.

(** The events [is_scanned_pdf] writes. *)
Definition scan_events (w : World) (pdf_file : list Byte.byte) : list event :=
  match scan_check w pdf_file with
  | inr _ => []
  | inl e => [StError (py "Error checking PDF: " ++ exn_msg e)]
  end.

(** [doc_class in prompt_mapping] *)
Definition in_mapping (w : World) (doc_class : pyval) : result bool :=
  match dict_find (prompt_mapping w) doc_class with
  | inl e => inl e
  | inr (Some _) => inr true
  | inr None => inr false
  end.

(** The request [get_document_class] sends for a text. *)
Definition classification_message (w : World) (pdf_text : pystr) : pystr :=
  message (system_prompt_for_doc_classification (prompts w))
          (user_prompt_classification (prompts w) pdf_text).

(** The events [get_document_class] writes. *)
Definition classification_events (w : World) (n : nat) (pdf_text : pystr)
  : list event :=
  StStatus (py "Classifying document type...")
  :: call_events w n (classification_message w pdf_text)
  ++ [StatusUpdate (py "Document classification complete!")].

(** The record [process_document] assembles. *)
Definition final_record (w : World) (document_type analysis : pyval) : pyval :=
  PyDict [(py "result",
           PyDict [(py "document_type", document_type);
                   (py "analysis", analysis);
                   (py "mongo_obj_id",
                    PyStr (insert_document w
                             (PyDict [(py "document_type", document_type);
                                      (py "analysis", analysis)])))])].

(** The first event of [get_document_analysis]. *)
Definition analysis_status : event :=
  StStatus (py "Generating document analysis...").

(** The state in which [process_document] starts to classify [text]. *)
Definition previewed (s : state) (text : pystr) : state :=
  log_append {| processing := true; log := log s |}
             [StExpander (py "Preview extracted text");
              StTextArea (py "Extracted Text") text].

(** How [process_document] ends when an exception reaches its handler. *)
Definition aborted (s : state) (e : exn) : result pyval * state :=
  (inr PyNone,
   {| processing := false;
      log := log s ++ [StError (py "Error processing document: " ++ exn_msg e)] |}).

(* ================================================================= *)
(** ** A reference JSON decoder

    The decoder of the standard library is a parameter of the program.  To
    run the program on concrete texts, this module decodes the JSON grammar
    without fractions, exponents and [\u] escapes: on a text of that
    fragment it gives the value [json.loads] gives, and it refuses the
    rest. *)

Module Json.

Definition is_ws (c : pychar) : bool :=
  (N.eqb c 32 || N.eqb c 9 || N.eqb c 10 || N.eqb c 13)%N.

Fixpoint skip_ws (s : pystr) : pystr :=
  match s with
  | c :: r => if is_ws c then skip_ws r else s
  | [] => []
  end.

Definition is_digit (c : pychar) : bool := ((48 <=? c) && (c <=? 57))%N.

(** The digits at the head of [s], read after the value [acc]. *)
Fixpoint digits (s : pystr) (acc : Z) : Z * pystr :=
  match s with
  | c :: r =>
      if is_digit c then digits r (10 * acc + (Z.of_N c - 48))%Z else (acc, s)
  | [] => (acc, [])
  end.

(** A number may not go on as a fraction or an exponent. *)
Definition ends_integer (s : pystr) : bool :=
  match s with
  | c :: _ => negb (N.eqb c 46 || N.eqb c 101 || N.eqb c 69)%N
  | [] => true
  end.

(** [0] or a digit string without a leading zero. *)
Definition natural (s : pystr) : option (Z * pystr) :=
  match s with
  | c :: r =>
      if N.eqb c 48 then (if ends_integer r then Some (0%Z, r) else None)
      else if is_digit c then
        let (z, r') := digits s 0 in
        if ends_integer r' then Some (z, r') else None
      else None
  | [] => None
  end.

Definition unescape (c : pychar) : option pychar :=
  (if N.eqb c 34 then Some 34         (* quote *)
   else if N.eqb c 92 then Some 92    (* backslash *)
   else if N.eqb c 47 then Some 47    (* slash *)
   else if N.eqb c 98 then Some 8     (* b *)
   else if N.eqb c 102 then Some 12   (* f *)
   else if N.eqb c 110 then Some 10   (* n *)
   else if N.eqb c 114 then Some 13   (* r *)
   else if N.eqb c 116 then Some 9    (* t *)
   else None)%N.

(** The characters of a string literal, after its opening quote. *)
Fixpoint chars (s : pystr) : option (pystr * pystr) :=
  match s with
  | [] => None
  | c :: r =>
      if N.eqb c 34 then Some ([], r)
      else if N.eqb c 92 then
        match r with
        | e :: r' =>
            match unescape e, chars r' with
            | Some x, Some (t, rest) => Some (x :: t, rest)
            | _, _ => None
            end
        | [] => None
        end
      else if (c <? 32)%N then None
      else
        match chars r with
        | Some (t, rest) => Some (c :: t, rest)
        | None => None
        end
  end.

Definition keyword (k : string) (s : pystr) : option pystr :=
  let n := List.length (py k) in
  if pystr_eqb (firstn n s) (py k) then Some (skipn n s) else None.

Fixpoint value (fuel : nat) (s : pystr) : option (pyval * pystr) :=
  match fuel with
  | O => None
  | S fuel' =>
      match skip_ws s with
      | [] => None
      | c :: r =>
          if N.eqb c 34 then
            match chars r with
            | Some (t, rest) => Some (PyStr t, rest)
            | None => None
            end
          else if N.eqb c 123 then
            match skip_ws r with
            | c' :: r' =>
                if N.eqb c' 125 then Some (PyDict [], r')
                else members fuel' (c' :: r') []
            | [] => None
            end
          else if N.eqb c 91 then
            match skip_ws r with
            | c' :: r' =>
                if N.eqb c' 93 then Some (PyList [], r')
                else elements fuel' (c' :: r') []
            | [] => None
            end
          else if N.eqb c 45 then
            match keyword "Infinity" r with
            | Some rest => Some (PyFloat neg_infinity, rest)
            | None =>
                match natural r with
                | Some (z, rest) => Some (PyInt (- z), rest)
                | None => None
                end
            end
          else if is_digit c then
            match natural (c :: r) with
            | Some (z, rest) => Some (PyInt z, rest)
            | None => None
            end
          else
            match keyword "null" (c :: r), keyword "true" (c :: r),
                  keyword "false" (c :: r), keyword "NaN" (c :: r),
                  keyword "Infinity" (c :: r) with
            | Some rest, _, _, _, _ => Some (PyNone, rest)
            | _, Some rest, _, _, _ => Some (PyBool true, rest)
            | _, _, Some rest, _, _ => Some (PyBool false, rest)
            | _, _, _, Some rest, _ => Some (PyFloat nan, rest)
            | _, _, _, _, Some rest => Some (PyFloat infinity, rest)
            | _, _, _, _, _ => None
            end
      end
  end

(** The members of an object from a key on; a repeated key keeps its first
    place and takes the later value. *)
with members (fuel : nat) (s : pystr) (acc : list (pystr * pyval))
  : option (pyval * pystr) :=
  match fuel with
  | O => None
  | S fuel' =>
      match s with
      | q :: r =>
          if N.eqb q 34 then
            match chars r with
            | Some (k, after_key) =>
                match skip_ws after_key with
                | colon :: r1 =>
                    if N.eqb colon 58 then
                      match value fuel' r1 with
                      | Some (v, r2) =>
                          let acc' := dict_set acc k v in
                          match skip_ws r2 with
                          | c :: r3 =>
                              if N.eqb c 125 then Some (PyDict acc', r3)
                              else if N.eqb c 44
                              then members fuel' (skip_ws r3) acc'
                              else None
                          | [] => None
                          end
                      | None => None
                      end
                    else None
                | [] => None
                end
            | None => None
            end
          else None
      | [] => None
      end
  end

(** The elements of an array. *)
with elements (fuel : nat) (s : pystr) (acc : list pyval)
  : option (pyval * pystr) :=
  match fuel with
  | O => None
  | S fuel' =>
      match value fuel' s with
      | Some (v, r) =>
          match skip_ws r with
          | c :: r' =>
              if N.eqb c 93 then Some (PyList (acc ++ [v]), r')
              else if N.eqb c 44 then elements fuel' r' (acc ++ [v])
              else None
          | [] => None
          end
      | None => None
      end
  end.

(** A whole text: one value, with white space around it at most. *)
Definition loads (s : pystr) : option pyval :=
  match value (2 * List.length s + 2) s with
  | Some (v, rest) =>
      match skip_ws rest with
      | [] => Some v
      | _ :: _ => None
      end
  | None => None
  end.

End Json.

(* ================================================================= *)
(** ** Scripted worlds

    A world for running the program on a concrete document: the pages the
    PDF library finds (or the exception it raises) and the bodies the
    service answers with, request after request. *)

Module Script.

(** [JSONDecodeError] for a text that has no value at its first character,
    which is how every text refused in the runs below fails. *)
Definition decode_error : exn :=
  Exn "JSONDecodeError" (py "Expecting value: line 1 column 1 (char 0)").

Definition loads (s : pystr) : result pyval :=
  match Json.loads s with
  | Some v => inr v
  | None => inl decode_error
  end.

Definition tagged (tag : string) (text today : pystr) : pystr :=
  py tag ++ today ++ py ": " ++ text.

Definition demo_prompts : Prompts := {|
  system_prompt_for_doc_classification := py "Classify the document.";
  user_prompt_classification := fun text => py "Document: " ++ text;
  user_prompt_poi := tagged "identity ";
  user_prompt_poa := tagged "address ";
  user_prompt_registration := tagged "registration ";
  user_prompt_ownership := tagged "ownership ";
  user_prompt_tax_return := tagged "tax return ";
  user_prompt_financial := tagged "financial ";
  system_prompt_for_indentity_doc := py "Analyse an identity document.";
  system_prompt_for_poa_doc := py "Analyse a proof of address.";
  system_prompt_for_registration_doc := py "Analyse a registration.";
  system_prompt_for_ownership_doc := py "Analyse an ownership document.";
  system_prompt_for_tax_return_doc := py "Analyse a tax return.";
  system_prompt_for_financial_doc := py "Analyse a financial document."
|}.

Definition no_more_replies : exn :=
  Exn "ClientError" (py "no reply scripted").

Definition world (pages : result (list Page)) (replies : list (result pystr))
  : World := {|
  prompts := demo_prompts;
  pdfplumber_open := fun _ => pages;
  invoke_model := fun n _ => nth n replies (inl no_more_replies);
  json_loads := loads;
  today := py "2025-01-31";
  now_stamp := py "20250131120000";
  (* no run below formats a float, a list or a dict *)
  repr := fun _ => py "?"
|}.

(** The response body that carries [text] as its only content block; [text]
    is given as it stands inside the JSON string. *)
Definition body_with (escaped_text : pystr) : pystr :=
  pyq "{'content':[{'type':'text','text':'" ++ escaped_text ++ pyq "'}]}".

Definition text_page (s : pystr) : Page := {| extract_text := inr (Some s) |}.
Definition blank_page : Page := {| extract_text := inr None |}.

(** A page of 120 letters. *)
Definition long_page : Page := text_page (repeat 97%N 120).

Definition initial : state := {| processing := false; log := [] |}.

(** A world whose service answers the first request with [text] in its
    content block (given as it stands inside the JSON string). *)
Definition replying (escaped_text : pystr) : World :=
  world (inr []) [inr (body_with escaped_text)].

End Script.

(* ================================================================= *)
(** ** The display

    [display_results] and [main] write widgets and keep the session.  A
    widget is recorded with the place it is written to and the arguments
    of the call. *)

Inductive place : Type := InPage | InSidebar | InTab1 | InTab2.

Inductive widget : Type :=
| Markdown (at_ : place) (body : pyval) (unsafe_allow_html : bool)
| Text (at_ : place) (body : pyval)
| Dataframe (at_ : place) (rows : list (pystr * pyval))
| Tabs (labels : list pystr)
| DownloadButton (label data file_name mime : pystr)
| Header (at_ : place) (body : pystr)
| FileUploader (label : pystr) (types : list pystr)
| Write (label : pystr) (value : pyval)
| Button (label : pystr)
| Spinner (label : pystr)
| Info (body : pystr)
| Ran (e : event).             (* what [process_document] wrote *)

(** What the display obtains from outside. *)
Record Screen : Type := {
  (** [s.title()] for a [str] with a character outside ASCII *)
  title_other : pystr -> pystr;
  (** [json.dumps(result, indent=2)] *)
  json_dumps_indent : pyval -> pystr;
  (** [datetime.now().strftime('%Y%m%d_%H%M%S')] *)
  download_stamp : pystr
}.

(** [bool(v)] *)
Definition truthy (v : pyval) : bool :=
  match v with
  | PyNone => false
  | PyBool b => b
  | PyInt z => negb (Z.eqb z 0)
  | PyFloat f => negb (PrimFloat.eqb f PrimFloat.zero)
  | PyStr s => negb (Nat.eqb (List.length s) 0)
  | PyList l => negb (Nat.eqb (List.length l) 0)
  | PyDict d => negb (Nat.eqb (List.length d) 0)
  end.

Fixpoint is_prefix (a b : pystr) : bool :=
  match a, b with
  | [], _ => true
  | x :: a', y :: b' => N.eqb x y && is_prefix a' b'
  | _ :: _, [] => false
  end.

Fixpoint is_substring (needle hay : pystr) : bool :=
  is_prefix needle hay
  || match hay with
     | [] => false
     | _ :: r => is_substring needle r
     end.

(** [k in v] for a [str] [k]: a key of a dict, an element of a list, a
    part of a string; the other values are no containers. *)
Definition contains (v : pyval) (k : string) : result bool :=
  match v with
  | PyDict d =>
      inr (match dict_lookup d (py k) with Some _ => true | None => false end)
  | PyList l =>
      inr (existsb (fun x => match x with
                             | PyStr t => pystr_eqb t (py k)
                             | _ => false
                             end) l)
  | PyStr s => inr (is_substring (py k) s)
  | _ =>
      inl (Exn "TypeError"
               (py ("argument of type '" ++ type_name v
                    ++ "' is not iterable")%string))
  end.

(** [v[k]] for a [str] [k]. *)
Definition getitem (w : World) (v : pyval) (k : string) : result pyval :=
  match v with
  | PyDict d =>
      match dict_lookup d (py k) with
      | Some x => inr x
      | None => inl (Exn "KeyError" (repr w (PyStr (py k))))
      end
  | PyList _ =>
      inl (Exn "TypeError"
               (py "list indices must be integers or slices, not str"))
  | PyStr _ =>
      inl (Exn "TypeError" (py "string indices must be integers, not 'str'"))
  | _ => inl (not_subscriptable v)
  end.

(** [v.get(k, default)] *)
Definition get_default (v : pyval) (k : string) (default : pyval)
  : result pyval :=
  match v with
  | PyDict d =>
      inr (match dict_lookup d (py k) with Some x => x | None => default end)
  | _ => inl (no_attribute v "get")
  end.

(** [v.items()] *)
Definition items (v : pyval) : result (list (pystr * pyval)) :=
  match v with
  | PyDict d => inr d
  | _ => inl (no_attribute v "items")
  end.

(** [s.replace('_', ' ')] *)
Definition replace_underscores (s : pystr) : pystr :=
  map (fun c => if N.eqb c 95 then 32%N else c) s.

Definition is_lower (c : pychar) : bool := ((97 <=? c) && (c <=? 122))%N.
Definition is_upper (c : pychar) : bool := ((65 <=? c) && (c <=? 90))%N.

(** [s.title()] on ASCII: a letter after a letter is put in lower case, any
    other letter in upper case. *)
Fixpoint title_from (previous_is_cased : bool) (s : pystr) : pystr :=
  match s with
  | [] => []
  | c :: r =>
      (if previous_is_cased
       then (if is_upper c then c + 32 else c)
       else (if is_lower c then c - 32 else c))%N
      :: title_from (is_lower c || is_upper c) r
  end.

Definition title (sc : Screen) (s : pystr) : pystr :=
  if forallb (fun c => (c <? 128)%N) s then title_from false s
  else title_other sc s.

(** A piece of display code writes widgets and returns or raises; what was
    written before an exception stays written. *)
Definition D (A : Type) : Type := (result A * list widget)%type.

Definition done {A} (a : A) : D A := (inr a, []).
Definition eval {A} (r : result A) : D A := (r, []).
Definition show (wd : widget) : D unit := (inr tt, [wd]).

Definition and_then {A B} (m : D A) (k : A -> D B) : D B :=
  match m with
  | (inl e, ws) => (inl e, ws)
  | (inr a, ws) => let (r, ws') := k a in (r, ws ++ ws')
  end.

Notation "x <~ m ;; k" := (and_then m (fun x => k))
  (at level 100, m at next level, right associativity) : py_scope.
Notation "m ~> k" := (and_then m (fun _ => k))
  (at level 100, right associativity) : py_scope.

(** [for x in l: body] *)
Fixpoint for_each {A} (l : list A) (body : A -> D unit) : D unit :=
  match l with
  | [] => done tt
  | x :: r => body x ~> for_each r body
  end.

Section Display.

Variable w : World.
Variable sc : Screen.

Definition markdown_text (at_ : place) (body : pystr) : D unit :=
  show (Markdown at_ (PyStr body) false).

(** [for k, v in item.items(): st.markdown(f"**{k}:** {v}")] *)
Definition show_entries (at_ : place) (d : list (pystr * pyval)) : D unit :=
  for_each d (fun kv =>
    markdown_text at_ (py "**" ++ fst kv ++ py ":** " ++ str_of w (snd kv))).

(** The loop over a list value, lines 336-341 and 351-356. *)
Definition show_list (at_ : place) (l : list pyval) : D unit :=
  for_each l (fun item =>
    match item with
    | PyDict d => show_entries at_ d
    | _ => show (Text at_ item)
    end).

Definition results_header : pystr :=
  pyq "<div class='sub-header'>" ++ [128196%N]
  ++ py " Document Analysis Results</div>".

Definition shown_elsewhere : list pystr :=
  [py "summary"; py "key_points"; py "validity"; py "extracted_fields"].

(** Lines 308-322: the first tab. *)
Definition summary_tab (analysis : pyval) : D unit :=
  has_summary <~ eval (contains analysis "summary") ;;
  (if has_summary : bool then
     markdown_text InTab1 (py "### Key Points") ~>
     summary <~ eval (getitem w analysis "summary") ;;
     show (Markdown InTab1 summary false)
   else
     has_key_points <~ eval (contains analysis "key_points") ;;
     if has_key_points : bool then
       markdown_text InTab1 (py "### Key Points") ~>
       key_points <~ eval (getitem w analysis "key_points") ;;
       show (Markdown InTab1 key_points false)
     else done tt) ~>
  has_validity <~ eval (contains analysis "validity") ;;
  if has_validity : bool then
    markdown_text InTab1 (py "### Document Validity") ~>
    validity <~ eval (getitem w analysis "validity") ;;
    status <~ eval (get_default validity "status" (PyStr (py "Unknown"))) ;;
    markdown_text InTab1 (py "**Status:** " ++ str_of w status) ~>
    has_confidence <~ eval (contains validity "confidence") ;;
    (if has_confidence : bool then
       confidence <~ eval (getitem w validity "confidence") ;;
       markdown_text InTab1
         (py "**Confidence:** " ++ str_of w confidence ++ py "%")
     else done tt) ~>
    has_notes <~ eval (contains validity "notes") ;;
    if has_notes : bool then
      notes <~ eval (getitem w validity "notes") ;;
      markdown_text InTab1 (py "**Notes:** " ++ str_of w notes)
    else done tt
  else done tt.

(** Lines 326-341: the extracted fields. *)
Definition fields_section (analysis : pyval) : D unit :=
  has_fields <~ eval (contains analysis "extracted_fields") ;;
  if has_fields : bool then
    markdown_text InTab2 (py "### Extracted Fields") ~>
    fields <~ eval (getitem w analysis "extracted_fields") ;;
    match fields with
    | PyDict d => show (Dataframe InTab2 d)
    | PyList l => show_list InTab2 l
    | _ => done tt
    end
  else done tt.

(** Lines 346-358: one entry of the analysis in the loop over the other
    sections. *)
Definition other_section (entry : pystr * pyval) : D unit :=
  let (key, value) := entry in
  if existsb (pystr_eqb key) shown_elsewhere then done tt
  else
    markdown_text InTab2 (py "### " ++ title sc (replace_underscores key)) ~>
    match value with
    | PyDict d =>
        for_each d (fun kv =>
          markdown_text InTab2
            (py "**" ++ title sc (replace_underscores (fst kv)) ++ py ":** "
             ++ str_of w (snd kv)))
    | PyList l => show_list InTab2 l
    | _ => show (Text InTab2 value)
    end.

Definition display_results (results : pyval) : D unit :=
  has_result <~ (if truthy results then eval (contains results "result")
                 else done false) ;;
  if negb has_result then done tt
  else
    result <~ eval (getitem w results "result") ;;
    show (Markdown InPage (PyStr results_header) true) ~>
    document_type <~ eval (getitem w result "document_type") ;;
    markdown_text InPage (py "**Document Type:** " ++ str_of w document_type) ~>
    analysis <~ eval (getitem w result "analysis") ;;
    show (Tabs [py "Summary"; py "Detailed Analysis"]) ~>
    summary_tab analysis ~>
    fields_section analysis ~>
    entries <~ eval (items analysis) ;;
    for_each entries other_section ~>
    show (DownloadButton
            (py "Download Analysis (JSON)")
            (json_dumps_indent sc result)
            (py "document_analysis_" ++ download_stamp sc ++ py ".json")
            (py "application/json")).

(** The upload: its name, the text [f"{size / 1024:.2f} KB"] of its size,
    and its bytes. *)
Record Upload : Type := {
  upload_name : pystr;
  upload_size_text : pystr;
  upload_bytes : list Byte.byte
}.

(** [st.session_state] *)
Record Session : Type := {
  session_results : pyval;
  session_processing : bool
}.

(** Lines 50-53. *)
Definition new_session : Session :=
  {| session_results := PyNone; session_processing := false |}.

Definition main_header : pystr :=
  pyq "<div class='main-header'>Document Analysis Tool</div>".

Definition info_box : pystr :=
  [newline] ++ pyq "    <div class='info-box'>" ++ [newline]
  ++ py "    Upload a PDF document to generate an automated summary and analysis. This tool identifies document type and extracts key information."
  ++ [newline] ++ py "    </div>" ++ [newline] ++ py "    ".

Definition about_text : pystr :=
  [newline]
  ++ join [newline]
       [py "        This tool analyzes various types of documents:";
        py "        ";
        py "        - Proof of Identity Documents";
        py "        - Proof of Address Documents";
        py "        - Registration Documents";
        py "        - Ownership Documents";
        py "        - Tax Returns";
        py "        - Financial Documents";
        py "        ";
        py "        The analysis includes document classification, key information extraction, and validity assessment.";
        py "        ";
        py "        **Note:** Scanned documents are not supported at this time.";
        py "        "].

(** What [main] writes before it looks at the upload. *)
Definition page_top : list widget :=
  [Markdown InPage (PyStr main_header) true;
   Markdown InPage (PyStr info_box) true;
   Header InSidebar (py "About");
   Markdown InSidebar (PyStr about_text) false;
   FileUploader (py "Upload a PDF document") [py "pdf"]].

(** Lines 399-410: the file details, the button and, on a click, the run.
    The run starts from the processing flag of the session with an empty
    screen of its own. *)
Definition upload_section (session : Session) (uploaded_file : option Upload)
           (clicked : bool) : result unit * Session * list widget :=
  match uploaded_file with
  | None => (inr tt, session, [])
  | Some f =>
      let file_details :=
        PyDict [(py "Filename", PyStr (upload_name f));
                (py "File size", PyStr (upload_size_text f))] in
      let shown := [Write (py "File Details:") file_details;
                    Button (py "Analyze Document")] in
      if clicked then
        let (r, s') :=
          process_document w (upload_bytes f)
            {| processing := session_processing session; log := [] |} in
        let shown :=
          shown ++ Spinner (py "Processing document...") :: map Ran (log s') in
        match r with
        | inr v =>
            (inr tt,
             {| session_results := v; session_processing := processing s' |},
             shown)
        | inl e =>
            (inl e,
             {| session_results := session_results session;
                session_processing := processing s' |},
             shown)
        end
      else (inr tt, session, shown)
  end.

(** One run of the page: the session before it, the file in the uploader
    and whether the button was pressed. *)
Definition main (session : Session) (uploaded_file : option Upload)
           (clicked : bool) : result unit * Session * list widget :=
  let '(r, session', shown) := upload_section session uploaded_file clicked in
  match r with
  | inl e => (inl e, session', page_top ++ shown)
  | inr _ =>
      let (r', displayed) :=
        if truthy (session_results session')
        then display_results (session_results session')
        else done tt in
      match r' with
      | inl e => (inl e, session', page_top ++ shown ++ displayed)
      | inr _ =>
          (inr tt, session',
           page_top ++ shown ++ displayed
           ++ (if session_processing session'
               then [Info (py "Document analysis in progress...")]
               else []))
      end
  end.

End Display.

(** Vocabulary for the statements about the display. *)

(** The record of a run, as [process_document] returns it. *)
Definition run_record (document_type analysis mongo_obj_id : pyval) : pyval :=
  PyDict [(py "result",
           PyDict [(py "document_type", document_type);
                   (py "analysis", analysis);
                   (py "mongo_obj_id", mongo_obj_id)])].

(** A dict without the entries of one key. *)
Definition without_key (k : pystr) (d : list (pystr * pyval))
  : list (pystr * pyval) :=
  filter (fun kv => negb (pystr_eqb (fst kv) k)) d.

Definition is_download (wd : widget) : bool :=
  match wd with
  | DownloadButton _ _ _ _ => true
  | _ => false
  end.

(** What is on the screen apart from the download button. *)
Definition without_download (ws : list widget) : list widget :=
  filter (fun wd => negb (is_download wd)) ws.

Definition is_info (wd : widget) : bool :=
  match wd with
  | Info _ => true
  | _ => false
  end.

(** What [display_results] does after the tabs are made, for the record
    [result] and its analysis. *)
Definition tabs_and_download (w : World) (sc : Screen)
           (result analysis : pyval) : D unit :=
  summary_tab w analysis ~>
  fields_section w analysis ~>
  entries <~ eval (items analysis) ;;
  for_each entries (other_section w sc) ~>
  show (DownloadButton
          (py "Download Analysis (JSON)")
          (json_dumps_indent sc result)
          (py "document_analysis_" ++ download_stamp sc ++ py ".json")
          (py "application/json")).

(** The widgets [display_results] writes. *)
Definition is_result_widget (wd : widget) : bool :=
  match wd with
  | Markdown _ _ _ | Text _ _ | Dataframe _ _ | Tabs _
  | DownloadButton _ _ _ _ => true
  | _ => false
  end.

Definition is_ran (wd : widget) : bool :=
  match wd with
  | Ran _ => true
  | _ => false
  end.

(** What a run of [main] gives: how it ended, the session it leaves and
    what it wrote. *)
Definition outcome (out : result unit * Session * list widget) : result unit :=
  fst (fst out).

Definition session_after (out : result unit * Session * list widget)
  : Session :=
  snd (fst out).

Definition written (out : result unit * Session * list widget)
  : list widget :=
  snd out.

(** What [main] writes for an upload before the run. *)
Definition file_widgets (f : Upload) : list widget :=
  [Write (py "File Details:")
         (PyDict [(py "Filename", PyStr (upload_name f));
                  (py "File size", PyStr (upload_size_text f))]);
   Button (py "Analyze Document")].

(** A screen for the runs below. *)
Definition plain_screen : Screen := {|
  title_other := fun s => s;
  json_dumps_indent := fun _ => [];
  download_stamp := py "20250131_120000"
|}.

(* ================================================================= *)
(** * Properties *)

(** ** Searching and slicing a string *)

Section StringFacts.

Variable c : pychar.

Lemma index_of_none (s : pystr) : index_of c s = None <-> ~ In c s.
Proof.
  induction s as [|x r IH]; simpl.
  - tauto.
  - destruct (N.eqb_spec x c) as [->|Hne].
    + split; [discriminate | intros H; exfalso; apply H; now left].
    + destruct (index_of c r); simpl.
      * split; [discriminate|].
        intros H. exfalso. apply H. right.
        destruct (in_dec N.eq_dec c r) as [Hin|Hnin]; [exact Hin|].
        apply IH in Hnin. discriminate.
      * split; [|reflexivity].
        intros _ [Heq|Hin]; [congruence|]. now apply IH.
Qed.

Lemma index_of_app (pre post : pystr) :
  ~ In c pre -> index_of c (pre ++ c :: post) = Some (List.length pre).
Proof.
  induction pre as [|x r IH]; simpl; intros Hnin.
  - now rewrite N.eqb_refl.
  - destruct (N.eqb_spec x c) as [->|_]; [exfalso; apply Hnin; now left|].
    rewrite IH; [reflexivity|]. intros H; apply Hnin; now right.
Qed.

Lemma index_of_some (s : pystr) (i : nat) :
  index_of c s = Some i ->
  exists pre post, s = pre ++ c :: post /\ ~ In c pre /\ List.length pre = i.
Proof.
  revert i. induction s as [|x r IH]; simpl; intros i H; [discriminate|].
  destruct (N.eqb_spec x c) as [->|Hne].
  - injection H as <-. exists [], r. simpl. tauto.
  - destruct (index_of c r) as [j|]; [|discriminate].
    injection H as <-.
    destruct (IH j eq_refl) as (pre & post & -> & Hnin & Hlen).
    exists (x :: pre), post. simpl. repeat split; [|now f_equal].
    intros [Heq|Hin]; [congruence|tauto].
Qed.

Lemma last_index_of_none (s : pystr) : last_index_of c s = None <-> ~ In c s.
Proof.
  induction s as [|x r IH]; simpl.
  - tauto.
  - destruct (last_index_of c r) as [j|].
    + split; [discriminate|].
      intros H. exfalso. apply H. right.
      destruct (in_dec N.eq_dec c r) as [Hin|Hnin]; [exact Hin|].
      apply IH in Hnin. discriminate.
    + destruct (N.eqb_spec x c) as [->|Hne].
      * split; [discriminate | intros H; exfalso; apply H; now left].
      * split; [|reflexivity].
        intros _ [Heq|Hin]; [congruence|]. now apply IH.
Qed.

Lemma last_index_of_app (pre post : pystr) :
  ~ In c post -> last_index_of c (pre ++ c :: post) = Some (List.length pre).
Proof.
  intros Hnin. apply last_index_of_none in Hnin.
  induction pre as [|x r IH]; simpl.
  - now rewrite Hnin, N.eqb_refl.
  - now rewrite IH.
Qed.

Lemma last_index_of_some (s : pystr) (i : nat) :
  last_index_of c s = Some i ->
  exists pre post, s = pre ++ c :: post /\ ~ In c post /\ List.length pre = i.
Proof.
  revert i. induction s as [|x r IH]; simpl; intros i H; [discriminate|].
  destruct (last_index_of c r) as [j|] eqn:Hr.
  - injection H as <-.
    destruct (IH j eq_refl) as (pre & post & -> & Hnin & Hlen).
    exists (x :: pre), post. simpl. repeat split; [exact Hnin | now f_equal].
  - destruct (N.eqb_spec x c) as [->|Hne]; [|discriminate].
    injection H as <-. exists [], r. simpl.
    repeat split. now apply last_index_of_none.
Qed.

Lemma index_of_first (pre post : pystr) :
  exists i, index_of c (pre ++ c :: post) = Some i /\ (i <= List.length pre)%nat.
Proof.
  induction pre as [|x r [i [IH Hle]]]; simpl.
  - rewrite N.eqb_refl. exists O. split; [reflexivity|lia].
  - destruct (N.eqb x c).
    + exists O. split; [reflexivity|lia].
    + rewrite IH. exists (S i). split; [reflexivity|lia].
Qed.

Lemma last_index_of_last (pre post : pystr) :
  exists j,
    last_index_of c (pre ++ c :: post) = Some j /\ (List.length pre <= j)%nat.
Proof.
  induction pre as [|x r [j [IH Hle]]]; simpl.
  - destruct (last_index_of c post) as [k|].
    + exists (S k). split; [reflexivity|lia].
    + rewrite N.eqb_refl. exists O. split; [reflexivity|lia].
  - rewrite IH. exists (S j). split; [reflexivity|lia].
Qed.

End StringFacts.

(** Two ways of splitting one string, the first split point before the
    second. *)
Lemma split_twice (A : Type) (pre pre' r r' : list A) (x y : A) :
  pre ++ x :: r = pre' ++ y :: r' ->
  (List.length pre < List.length pre')%nat ->
  exists mid, pre' = pre ++ x :: mid /\ r = mid ++ y :: r'.
Proof.
  revert pre'. induction pre as [|a pre IH]; intros [|a' pre'] H Hlt;
    simpl in *; try lia.
  - injection H as -> ->. now exists pre'.
  - injection H as -> H. destruct (IH pre' H) as (mid & -> & ->); [lia|].
    now exists mid.
Qed.

Lemma adjust_index_nonneg (n i : Z) :
  (0 <= n)%Z -> (0 <= i)%Z -> adjust_index n i = Z.min i n.
Proof.
  intros Hn Hi. unfold adjust_index.
  destruct (Z.ltb_spec i 0); [lia|].
  destruct (Z.ltb_spec i 0); [lia|].
  destruct (Z.ltb_spec n i); lia.
Qed.

Lemma adjust_index_last (n : Z) :
  (0 <= n)%Z -> adjust_index n (-1) = Z.max 0 (n - 1).
Proof.
  intros Hn. unfold adjust_index.
  replace (-1 <? 0)%Z with true by reflexivity.
  destruct (Z.ltb_spec (-1 + n) 0); [lia|].
  destruct (Z.ltb_spec n (-1 + n)); lia.
Qed.

Lemma len_nonneg (s : pystr) : (0 <= len s)%Z.
Proof. unfold len. lia. Qed.

Lemma slice_in_range (s : pystr) (a b : nat) :
  (a <= b <= List.length s)%nat ->
  slice s (Z.of_nat a) (Z.of_nat b) = firstn (b - a) (skipn a s).
Proof.
  intros H. unfold slice.
  rewrite !adjust_index_nonneg by (try apply len_nonneg; lia).
  unfold len. f_equal; [|f_equal]; lia.
Qed.

(** A slice that stops at or before its start is empty. *)
Lemma slice_backwards (s : pystr) (a b : Z) :
  (0 <= b <= a)%Z -> slice s a b = [].
Proof.
  intros H. unfold slice.
  rewrite !adjust_index_nonneg by (try apply len_nonneg; lia).
  replace (Z.to_nat _) with O by lia. reflexivity.
Qed.

(** A slice from index -1 that stops short of the end is empty. *)
Lemma slice_last_short (s : pystr) (b : Z) :
  (0 <= b < len s)%Z \/ s = [] -> slice s (-1) b = [].
Proof.
  intros [H| ->]; [|unfold slice; simpl; now destruct (Z.to_nat _)].
  unfold slice.
  rewrite adjust_index_last by apply len_nonneg.
  rewrite adjust_index_nonneg by (try apply len_nonneg; lia).
  replace (Z.to_nat (_ - _)) with O by lia. reflexivity.
Qed.

(** A slice from index -1 to the end is the last character. *)
Lemma slice_last (pre : pystr) (x : pychar) :
  slice (pre ++ [x]) (-1) (len (pre ++ [x])) = [x].
Proof.
  unfold slice.
  rewrite adjust_index_last by apply len_nonneg.
  rewrite adjust_index_nonneg by apply len_nonneg.
  unfold len. rewrite length_app. simpl.
  replace (Z.to_nat (Z.max _ _)) with (List.length pre) by lia.
  rewrite skipn_app, skipn_all, Nat.sub_diag. simpl.
  replace (Z.to_nat _) with 1%nat by lia.
  reflexivity.
Qed.

(** With an opening brace somewhere before a closing one, the part runs from
    the first opening brace to the last closing brace, both included. *)
Lemma braced_pair (pre mid post : pystr) :
  ~ In lbrace pre -> ~ In rbrace post ->
  braced (pre ++ lbrace :: mid ++ rbrace :: post) = lbrace :: mid ++ [rbrace].
Proof.
  intros Hpre Hpost. unfold braced, find, rfind.
  rewrite (index_of_app lbrace pre _ Hpre).
  replace (pre ++ lbrace :: mid ++ rbrace :: post)
    with ((pre ++ lbrace :: mid) ++ rbrace :: post)
    by (rewrite <- app_assoc; reflexivity).
  rewrite (last_index_of_app rbrace _ post Hpost).
  replace (Z.of_nat (List.length (pre ++ lbrace :: mid)) + 1)%Z
    with (Z.of_nat (S (List.length (pre ++ lbrace :: mid)))) by lia.
  rewrite slice_in_range
    by (rewrite !length_app; cbn [List.length]; rewrite ?length_app; cbn [List.length]; lia).
  replace (S (List.length (pre ++ lbrace :: mid)) - List.length pre)%nat
    with (S (List.length (mid ++ [rbrace])))
    by (rewrite !length_app; cbn [List.length]; rewrite ?length_app; cbn [List.length]; lia).
  rewrite <- app_assoc. rewrite skipn_app, skipn_all, Nat.sub_diag. simpl.
  f_equal.
  replace (mid ++ rbrace :: post) with ((mid ++ [rbrace]) ++ post)
    by (rewrite <- app_assoc; reflexivity).
  rewrite firstn_app, firstn_all, Nat.sub_diag. simpl. now rewrite app_nil_r.
Qed.

(** Without such a pair the part is empty, or is the closing brace that
    ends the text. *)
Lemma braced_no_pair (text : pystr) :
  ~ has_brace_pair text -> braced text = [] \/ braced text = [rbrace].
Proof.
  intros Hno. unfold braced, find, rfind.
  destruct (index_of lbrace text) as [i|] eqn:Hi.
  - left.
    destruct (index_of_some _ _ _ Hi) as (pre & rest & Htext & _ & Hleni).
    destruct (last_index_of rbrace text) as [j|] eqn:Hj.
    + destruct (last_index_of_some _ _ _ Hj)
        as (pre' & post & Htext' & _ & Hlenj).
      apply slice_backwards.
      destruct (Nat.lt_trichotomy i j) as [Hlt|[Heq|Hgt]]; [| |lia].
      * exfalso. apply Hno. rewrite Htext in Htext'.
        destruct (split_twice _ _ _ _ _ _ _ Htext') as (mid & _ & ->); [lia|].
        now exists pre, mid, post.
      * exfalso. rewrite Htext in Htext'.
        assert (Hsame : List.length pre = List.length pre') by lia.
        apply (f_equal (fun l => nth (List.length pre) l 0%N)) in Htext'.
        rewrite nth_middle in Htext'.
        rewrite Hsame, nth_middle in Htext'. discriminate.
    + apply slice_backwards. simpl. lia.
  - destruct (last_index_of rbrace text) as [j|] eqn:Hj.
    + destruct (last_index_of_some _ _ _ Hj)
        as (pre' & post & Htext' & _ & Hlenj).
      destruct post as [|p post].
      * right. subst text.
        replace (Z.of_nat j + 1)%Z with (len (pre' ++ [rbrace]))
          by (unfold len; rewrite length_app; simpl; lia).
        apply slice_last.
      * left. apply slice_last_short. left. subst text. unfold len.
        rewrite length_app. simpl. lia.
    + left. apply slice_last_short. simpl.
      destruct text; [now right|left]. unfold len. simpl. lia.
Qed.

(** ** What each function returns and writes *)

Lemma log_append_nil (s : state) : log_append s [] = s.
Proof. destruct s. unfold log_append. simpl. now rewrite app_nil_r. Qed.

Lemma log_append_app (s : state) (a b : list event) :
  log_append (log_append s a) b = log_append s (a ++ b).
Proof. unfold log_append. simpl. now rewrite app_assoc. Qed.

Lemma requests_log_append (s : state) (es : list event) :
  requests (log_append s es) = requests s ++ filter is_invoke es.
Proof. unfold requests, log_append. simpl. apply filter_app. Qed.

Lemma requests_set_processing (s : state) (b : bool) :
  requests {| processing := b; log := log s |} = requests s.
Proof. reflexivity. Qed.

Ltac run_monad :=
  cbv beta iota zeta delta [try_except bind ret lift emit set_processing].

Section Runs.

Variable w : World.

Lemma is_scanned_pdf_run (pdf_file : list Byte.byte) (s : state) :
  is_scanned_pdf w pdf_file s
  = (inr (scanned w pdf_file), log_append s (scan_events w pdf_file)).
Proof.
  unfold is_scanned_pdf, scanned, scan_events. run_monad.
  destruct (scan_check w pdf_file) as [e|b].
  - reflexivity.
  - now rewrite log_append_nil.
Qed.

Lemma is_scanned_pdf_verdict (pdf_file : list Byte.byte) (s : state) (b : bool) :
  fst (is_scanned_pdf w pdf_file s) = inr b -> scanned w pdf_file = b.
Proof. rewrite is_scanned_pdf_run. simpl. congruence. Qed.

Lemma bedrock_try_run (system_prompt prompt_type pdf_text : pystr) (s : state) :
  bedrock_try w system_prompt prompt_type pdf_text s
  = (answer w (List.length (requests s)) (message system_prompt prompt_type),
     log_append s [InvokeModel (message system_prompt prompt_type)]).
Proof.
  unfold bedrock_try, answer, invoke. run_monad.
  destruct (invoke_model w _ _) as [e|body]; [reflexivity|].
  destruct (response_text_of w body) as [e|text]; reflexivity.
Qed.

Lemma bedrock_calling_run (system_prompt prompt_type pdf_text : pystr)
      (s : state) :
  bedrock_calling w system_prompt prompt_type pdf_text s
  = (inr (call_result w (List.length (requests s))
                      (message system_prompt prompt_type)),
     log_append s (call_events w (List.length (requests s))
                               (message system_prompt prompt_type))).
Proof.
  unfold bedrock_calling, try_except. rewrite bedrock_try_run.
  unfold call_result, call_events.
  destruct (answer w _ _) as [e|v]; [|reflexivity].
  run_monad. now rewrite log_append_app.
Qed.

Lemma get_document_class_run (pdf_text : pystr) (s : state) :
  get_document_class w pdf_text s
  = (inr (call_result w (List.length (requests s))
                      (classification_message w pdf_text)),
     log_append s (classification_events w (List.length (requests s)) pdf_text)).
Proof.
  unfold get_document_class. run_monad. rewrite bedrock_calling_run.
  rewrite requests_log_append, app_nil_r. fold (classification_message w pdf_text).
  rewrite !log_append_app. reflexivity.
Qed.

End Runs.

(** ** The text that is decoded *)

(** When some opening brace comes before some closing brace, the first
    opening brace comes before the last closing brace, and the decoded part
    is the text from the one to the other. *)
Lemma braced_first_to_last (text : pystr) :
  has_brace_pair text ->
  exists pre mid post,
    text = pre ++ lbrace :: mid ++ rbrace :: post
    /\ ~ In lbrace pre /\ ~ In rbrace post
    /\ braced text = lbrace :: mid ++ [rbrace].
Proof.
  intros (p & m & q & Htext).
  destruct (index_of_first lbrace p (m ++ rbrace :: q)) as (i & Hi & Hile).
  destruct (last_index_of_last rbrace (p ++ lbrace :: m) q) as (j & Hj & Hjle).
  rewrite <- app_assoc in Hj. simpl in Hj. rewrite <- Htext in Hi, Hj.
  destruct (index_of_some _ _ _ Hi) as (pre & rest & Hpre & Hnin & Hleni).
  destruct (last_index_of_some _ _ _ Hj) as (pre' & post & Hpost & Hnin' & Hlenj).
  rewrite length_app in Hjle. simpl in Hjle.
  rewrite Hpre in Hpost.
  destruct (split_twice _ _ _ _ _ _ _ Hpost) as (mid & _ & ->); [lia|].
  exists pre, mid, post. repeat split; try assumption.
  rewrite Hpre. now apply braced_pair.
Qed.

Lemma extract_json_str (w : World) (text : pystr) :
  extract_json w (PyStr text) = json_loads w (braced text).
Proof. reflexivity. Qed.

Lemma answer_of_reply (w : World) (n : nat) (content text : pystr) :
  replies_with w n content text ->
  answer w n content = json_loads w (braced text).
Proof.
  intros (body & Hbody & Htext). unfold answer. now rewrite Hbody, Htext.
Qed.

Lemma call_events_error (w : World) (n : nat) (content : pystr) (e : exn) :
  answer w n content = inl e ->
  forall s,
    In (StError (py "Error calling Bedrock API: " ++ exn_msg e))
       (log (log_append s (call_events w n content))).
Proof.
  intros H s. unfold call_events, log_append. rewrite H. simpl.
  apply in_or_app. right. simpl. tauto.
Qed.

(** ** The inference call *)

(** C10.  [bedrock_calling] never raises.  Whatever happens inside its [try]
    block, it returns a value: the decoded payload when the block completes,
    and otherwise the one-entry dict [{"error": str(e)}] for the exception
    [e] that ended the block, after showing the message with [st.error].
    This holds in particular for a transport failure and for a text whose
    braced part does not decode.  The failure is a plain dict, of the type
    of a payload. *)
Theorem bedrock_calling_never_raises
        (w : World) (system_prompt prompt_type pdf_text : pystr) (s : state) :
  exists d : pyval,
    fst (bedrock_calling w system_prompt prompt_type pdf_text s) = inr d
    /\ match fst (bedrock_try w system_prompt prompt_type pdf_text s) with
       | inr payload => d = payload
       | inl e =>
           d = PyDict [(py "error", PyStr (exn_msg e))]
           /\ get d "error" = inr (PyStr (exn_msg e))
           /\ In (StError (py "Error calling Bedrock API: " ++ exn_msg e))
                 (log (snd (bedrock_calling w system_prompt prompt_type
                                            pdf_text s)))
       end
    /\ (forall e,
           invoke_model w (List.length (requests s))
                        (message system_prompt prompt_type) = inl e ->
           d = PyDict [(py "error", PyStr (exn_msg e))])
    /\ (forall text e,
           replies_with w (List.length (requests s))
                        (message system_prompt prompt_type) text ->
           json_loads w (braced text) = inl e ->
           d = PyDict [(py "error", PyStr (exn_msg e))]).
Proof.
  rewrite bedrock_calling_run, bedrock_try_run. simpl.
  exists (call_result w (List.length (requests s))
                      (message system_prompt prompt_type)).
  split; [reflexivity|]. unfold call_result. repeat split.
  - destruct (answer w _ _) as [e|v] eqn:Ha; [|reflexivity].
    repeat split. apply (call_events_error _ _ _ _ Ha s).
  - intros e He. unfold answer. now rewrite He.
  - intros text e Hr He. now rewrite (answer_of_reply _ _ _ _ Hr), He.
Qed.

(** C1, as the program has it.  When the service answers with a text, only
    the part of the text from its first opening brace to its last closing
    brace is decoded, and the decoded value is what the call returns.  When
    no opening brace comes before a closing brace, or when that part does
    not decode, the call returns the dict [{"error": str(e)}] for the
    decoder's exception [e] and shows the message with [st.error]; it does
    not raise.  For the text [blah {"a":1} blah] it returns [{"a": 1}]. *)
Theorem bedrock_calling_decodes_braced_text
        (w : World) (system_prompt prompt_type pdf_text : pystr) (s : state)
        (text : pystr) (e0 e1 : exn) :
  replies_with w (List.length (requests s))
               (message system_prompt prompt_type) text ->
  json_loads w [] = inl e0 ->
  json_loads w [rbrace] = inl e1 ->
  let r := bedrock_calling w system_prompt prompt_type pdf_text s in
  fst r = inr (match json_loads w (braced text) with
               | inr payload => payload
               | inl e => error_dict (exn_msg e)
               end)
  /\ (has_brace_pair text ->
      exists pre mid post,
        text = pre ++ lbrace :: mid ++ rbrace :: post
        /\ ~ In lbrace pre /\ ~ In rbrace post
        /\ braced text = lbrace :: mid ++ [rbrace])
  /\ (forall e,
         json_loads w (braced text) = inl e ->
         fst r = inr (error_dict (exn_msg e))
         /\ In (StError (py "Error calling Bedrock API: " ++ exn_msg e))
               (log (snd r)))
  /\ (~ has_brace_pair text ->
      exists e, json_loads w (braced text) = inl e)
  /\ (text = pyq "blah {'a':1} blah" ->
      json_loads w (pyq "{'a':1}") = inr (PyDict [(py "a", PyInt 1)]) ->
      fst r = inr (PyDict [(py "a", PyInt 1)])).
Proof.
  intros Hr H0 H1 r. subst r. rewrite bedrock_calling_run. simpl.
  pose proof (answer_of_reply _ _ _ _ Hr) as Ha.
  unfold call_result. rewrite Ha.
  split; [reflexivity|].
  split; [apply braced_first_to_last|].
  split; [|split].
  - intros e He. rewrite He. split; [reflexivity|].
    rewrite <- Ha in He. apply (call_events_error _ _ _ _ He s).
  - intros Hno. destruct (braced_no_pair _ Hno) as [-> | ->]; eauto.
  - intros -> Hdec.
    replace (braced (pyq "blah {'a':1} blah")) with (pyq "{'a':1}")
      by (vm_compute; reflexivity).
    now rewrite Hdec.
Qed.

Lemma bedrock_calling_decodes_braced_text_example :
  fst (bedrock_calling (Script.replying (pyq "blah {\'a\':1} blah"))
                       (py "system") (py "user") (py "text") Script.initial)
  = inr (PyDict [(py "a", PyInt 1)]).
Proof.
  refine (proj2 (proj2 (proj2 (proj2
    (bedrock_calling_decodes_braced_text
       (Script.replying (pyq "blah {\'a\':1} blah"))
       (py "system") (py "user") (py "text") Script.initial
       (pyq "blah {'a':1} blah") Script.decode_error Script.decode_error
       _ _ _)))) _ _).
  - exists (Script.body_with (pyq "blah {\'a\':1} blah")).
    split; vm_compute; reflexivity.
  - vm_compute; reflexivity.
  - vm_compute; reflexivity.
  - reflexivity.
  - vm_compute; reflexivity.
Defined.

(** C1 as stated fails: a text without braces does not make the call fail.
    The call returns [{"error": "Expecting value: line 1 column 1 (char 0)"}],
    which is also what it returns when the service sends that very object as
    its payload; and when the analysis answer of a run has no braces,
    [process_document] delivers that dict as the analysis of its record. *)
Lemma bedrock_calling_returns_failure_as_payload :
  index_of lbrace (py "no braces here") = None
  /\ bedrock_calling (Script.replying (py "no braces here"))
                     (py "system") (py "user") (py "text") Script.initial
     = (inr (PyDict [(py "error",
                      PyStr (py "Expecting value: line 1 column 1 (char 0)"))]),
        {| processing := false;
           log := [InvokeModel (message (py "system") (py "user"));
                   StError (py "Error calling Bedrock API: Expecting value: line 1 column 1 (char 0)")] |})
  /\ answer (Script.replying
               (pyq "{\'error\': \'Expecting value: line 1 column 1 (char 0)\'}"))
            0 (message (py "system") (py "user"))
     = inr (PyDict [(py "error",
                     PyStr (py "Expecting value: line 1 column 1 (char 0)"))])
  /\ fst (bedrock_calling
            (Script.replying
               (pyq "{\'error\': \'Expecting value: line 1 column 1 (char 0)\'}"))
            (py "system") (py "user") (py "text") Script.initial)
     = fst (bedrock_calling (Script.replying (py "no braces here"))
                            (py "system") (py "user") (py "text")
                            Script.initial)
  /\ fst (process_document
            (Script.world
               (inr [Script.long_page])
               [inr (Script.body_with
                       (pyq "{\'class\':0,\'category\':\'Passport\'}"));
                inr (Script.body_with (py "no braces here"))])
            [] Script.initial)
     = inr (PyDict
              [(py "result",
                PyDict
                  [(py "document_type", PyStr (py "Passport"));
                   (py "analysis",
                    PyDict
                      [(py "error",
                        PyStr (py "Expecting value: line 1 column 1 (char 0)"))]);
                   (py "mongo_obj_id", PyStr (py "doc_20250131120000"))])]).
Proof. repeat split; vm_compute; reflexivity. Qed.

(** ** Scan detection *)

Lemma firstn_min_length (A : Type) (n : nat) (l : list A) :
  firstn (Nat.min n (List.length l)) l = firstn n l.
Proof.
  destruct (Nat.le_gt_cases n (List.length l)) as [H|H].
  - now rewrite Nat.min_l.
  - rewrite Nat.min_r by lia. rewrite firstn_all.
    symmetry. apply firstn_all2. lia.
Qed.

Lemma sampled_text_readable (pages : list Page) (acc : pystr) :
  Forall readable pages ->
  sampled_text pages acc = inr (acc ++ List.concat (map page_text pages)).
Proof.
  intros H. revert acc. induction H as [|p ps [t Hp] _ IH]; intros acc; simpl.
  - now rewrite app_nil_r.
  - unfold page_text at 1. rewrite Hp.
    destruct t as [[|c text]|]; rewrite IH; simpl.
    + reflexivity.
    + now rewrite <- app_assoc.
    + reflexivity.
Qed.

Lemma page_texts_readable (pages : list Page) :
  Forall readable pages -> page_texts pages = inr (map page_text pages).
Proof.
  induction 1 as [|p ps [t Hp] _ IH]; simpl; [reflexivity|].
  unfold page_text at 1. rewrite Hp, IH. now destruct t.
Qed.

Lemma readable_pages (pages : list Page) :
  forallb readableb pages = true -> Forall readable pages.
Proof.
  induction pages as [|p ps IH]; simpl; intros H; constructor.
  - apply andb_prop in H. destruct H as [H _]. unfold readableb in H.
    unfold readable. destruct (extract_text p) as [e|t]; [discriminate|eauto].
  - apply IH. apply andb_prop in H. tauto.
Qed.

(** C4.  When the PDF opens and its first three pages (all of them if there
    are fewer) can be read, [is_scanned_pdf] answers [True] exactly when the
    stripped concatenation of their texts has at most 100 characters, and it
    writes nothing.  A PDF without pages is scanned. *)
Theorem is_scanned_pdf_threshold
        (w : World) (pdf_file : list Byte.byte) (s : state)
        (pages : list Page) :
  pdfplumber_open w pdf_file = inr pages ->
  Forall readable (firstn 3 pages) ->
  let text := List.concat (map page_text (firstn 3 pages)) in
  is_scanned_pdf w pdf_file s = (inr (len (strip text) <=? 100)%Z, s)
  /\ (pages = [] -> is_scanned_pdf w pdf_file s = (inr true, s))
  /\ ((len (strip text) <= 100)%Z ->
      fst (is_scanned_pdf w pdf_file s) = inr true)
  /\ ((100 < len (strip text))%Z ->
      fst (is_scanned_pdf w pdf_file s) = inr false).
Proof.
  intros Hopen Hread text.
  assert (Hrun : is_scanned_pdf w pdf_file s
                 = (inr (len (strip text) <=? 100)%Z, s)).
  { rewrite is_scanned_pdf_run. unfold scanned, scan_events, scan_check.
    rewrite Hopen. destruct pages as [|p ps]; simpl Nat.eqb; cbv iota.
    - now rewrite log_append_nil.
    - cbv zeta. rewrite firstn_min_length.
      rewrite (sampled_text_readable _ [] Hread), app_nil_l.
      rewrite Z.leb_antisym. subst text.
      destruct (100 <? len (strip _))%Z; now rewrite log_append_nil. }
  rewrite Hrun. repeat split.
  - intros ->. reflexivity.
  - intros H. simpl. f_equal. now apply Z.leb_le.
  - intros H. simpl. f_equal. apply Z.leb_gt. lia.
Qed.

Lemma is_scanned_pdf_threshold_example :
  fst (is_scanned_pdf
         (Script.world (inr [Script.text_page (repeat 97%N 20)]) [])
         [] Script.initial) = inr true
  /\ fst (is_scanned_pdf
            (Script.world (inr [Script.long_page; Script.blank_page]) [])
            [] Script.initial) = inr false.
Proof.
  split.
  - refine (proj1 (proj2 (proj2
      (is_scanned_pdf_threshold
         (Script.world (inr [Script.text_page (repeat 97%N 20)]) [])
         [] Script.initial [Script.text_page (repeat 97%N 20)] eq_refl _))) _).
    + now apply readable_pages.
    + vm_compute. discriminate.
  - refine (proj2 (proj2 (proj2
      (is_scanned_pdf_threshold
         (Script.world (inr [Script.long_page; Script.blank_page]) [])
         [] Script.initial [Script.long_page; Script.blank_page] eq_refl _))) _).
    + now apply readable_pages.
    + vm_compute. reflexivity.
Defined.

(** ** Dispatch on the document class *)

Lemma dict_find_both_tables (w : World) (v : pyval)
      (build : pystr -> pystr -> pystr) :
  dict_find (prompt_mapping w) v = inr (Some build) ->
  subscript w (prompt_mapping w) v = inr build
  /\ exists system_prompt,
       subscript w (system_prompt_mapping w) v = inr system_prompt.
Proof.
  unfold subscript, dict_find. destruct (hashable v); [|discriminate].
  intros H0.
  assert (H : option_map snd
                (List.find (fun e => equals_int v (fst e)) (prompt_mapping w))
              = Some build) by congruence.
  clear H0. rewrite H. split; [reflexivity|].
  revert H. unfold prompt_mapping, system_prompt_mapping. simpl.
  repeat match goal with
         | |- context [equals_int v ?k] => destruct (equals_int v k)
         end; simpl; intros H; try discriminate; eauto.
Qed.

Lemma in_mapping_int (w : World) (z : Z) :
  in_mapping w (PyInt z) = inr ((0 <=? z) && (z <=? 5))%Z.
Proof.
  unfold in_mapping, dict_find, prompt_mapping. simpl.
  repeat match goal with
         | |- context [(z =? ?k)%Z] => destruct (Z.eqb_spec z k); [subst; reflexivity|]
         end.
  simpl. symmetry. f_equal.
  destruct (Z.leb_spec 0 z); destruct (Z.leb_spec z 5); simpl; try reflexivity.
  lia.
Qed.

Lemma get_document_analysis_run
      (w : World) (doc_class : pyval) (pdf_text : pystr) (s : state) :
  get_document_analysis w doc_class pdf_text s
  = match dict_find (prompt_mapping w) doc_class with
    | inl e => (inl e, log_append s [analysis_status])
    | inr None =>
        (inr (error_dict (invalid_class w doc_class)),
         log_append s [analysis_status; StError (invalid_class w doc_class)])
    | inr (Some build) =>
        match subscript w (system_prompt_mapping w) doc_class with
        | inl e => (inl e, log_append s [analysis_status])
        | inr system_prompt =>
            let content := message system_prompt (build pdf_text (today w)) in
            (inr (call_result w (List.length (requests s)) content),
             log_append s
               (analysis_status
                :: call_events w (List.length (requests s)) content
                ++ [StatusUpdate (py "Document analysis complete!")]))
        end
    end.
Proof.
  unfold get_document_analysis. run_monad.
  destruct (dict_find (prompt_mapping w) doc_class) as [e|[build|]] eqn:Hf.
  - reflexivity.
  - destruct (dict_find_both_tables _ _ _ Hf) as (-> & sys & ->).
    rewrite bedrock_calling_run. rewrite requests_log_append, app_nil_r.
    cbv zeta. rewrite !log_append_app. reflexivity.
  - rewrite log_append_app. reflexivity.
Qed.

Lemma get_document_analysis_grows
      (w : World) (doc_class : pyval) (pdf_text : pystr) (s : state) :
  exists r es,
    get_document_analysis w doc_class pdf_text s = (r, log_append s es).
Proof.
  rewrite get_document_analysis_run.
  destruct (dict_find (prompt_mapping w) doc_class) as [e|[build|]];
    [eauto| |eauto].
  destruct (subscript w (system_prompt_mapping w) doc_class); eauto.
Qed.

(** C8, as the program has it.  For a document class that is not a key of
    the prompt tables, [get_document_analysis] builds no prompt and sends
    nothing to the service, and it does not fail: it shows "Invalid document
    class: ..." and returns the error dict with that message as its
    result.  The integers that are keys are 0 to 5, and [None] is not a
    key.  A class that cannot be hashed (a list or a dict) ends the function
    with [TypeError] before anything is sent. *)
Theorem get_document_analysis_unknown_class
        (w : World) (doc_class : pyval) (pdf_text : pystr) (s : state) :
  match in_mapping w doc_class with
  | inr false =>
      get_document_analysis w doc_class pdf_text s
      = (inr (PyDict [(py "error",
                       PyStr (py "Invalid document class: "
                              ++ str_of w doc_class))]),
         log_append s
           [StStatus (py "Generating document analysis...");
            StError (py "Invalid document class: " ++ str_of w doc_class)])
      /\ requests (snd (get_document_analysis w doc_class pdf_text s))
         = requests s
  | inl e =>
      e = unhashable doc_class
      /\ fst (get_document_analysis w doc_class pdf_text s) = inl e
      /\ requests (snd (get_document_analysis w doc_class pdf_text s))
         = requests s
  | inr true => True
  end
  /\ (forall z : Z,
         in_mapping w (PyInt z) = inr ((0 <=? z) && (z <=? 5))%Z)
  /\ in_mapping w PyNone = inr false.
Proof.
  split; [|split; [apply in_mapping_int | reflexivity]].
  rewrite get_document_analysis_run. unfold in_mapping.
  destruct (dict_find (prompt_mapping w) doc_class) as [e|[build|]] eqn:Hf.
  - repeat split.
    + unfold dict_find in Hf. destruct (hashable doc_class); congruence.
    + simpl. rewrite requests_log_append. simpl. apply app_nil_r.
  - exact I.
  - split; [reflexivity|].
    simpl. rewrite requests_log_append. simpl. apply app_nil_r.
Qed.

(** C8 as stated fails: the class 9 does not make [get_document_analysis]
    fail.  It returns a dict, and [process_document] stores that dict as
    the analysis of the record it returns: the very record of a run whose
    class is 0 and whose analysis answer is the object
    [{"error": "Invalid document class: 9"}].  A class that is a list does
    make it fail, with [TypeError]. *)
Lemma get_document_analysis_returns_for_unknown_class :
  in_mapping (Script.world (inr []) []) (PyInt 9) = inr false
  /\ get_document_analysis (Script.world (inr []) []) (PyInt 9) (py "text")
                           Script.initial
     = (inr (PyDict [(py "error", PyStr (py "Invalid document class: 9"))]),
        {| processing := false;
           log := [StStatus (py "Generating document analysis...");
                   StError (py "Invalid document class: 9")] |})
  /\ fst (process_document
            (Script.world
               (inr [Script.long_page])
               [inr (Script.body_with
                       (pyq "{\'class\': 9, \'category\': \'Passport\'}"))])
            [] Script.initial)
     = inr (PyDict
              [(py "result",
                PyDict
                  [(py "document_type", PyStr (py "Passport"));
                   (py "analysis",
                    PyDict [(py "error",
                             PyStr (py "Invalid document class: 9"))]);
                   (py "mongo_obj_id", PyStr (py "doc_20250131120000"))])])
  /\ fst (process_document
            (Script.world
               (inr [Script.long_page])
               [inr (Script.body_with
                       (pyq "{\'class\': 0, \'category\': \'Passport\'}"));
                inr (Script.body_with
                       (pyq "{\'error\': \'Invalid document class: 9\'}"))])
            [] Script.initial)
     = fst (process_document
              (Script.world
                 (inr [Script.long_page])
                 [inr (Script.body_with
                         (pyq "{\'class\': 9, \'category\': \'Passport\'}"))])
              [] Script.initial)
  /\ get_document_analysis (Script.world (inr []) []) (PyList []) (py "text")
                           Script.initial
     = (inl (Exn "TypeError" (py "unhashable type: 'list'")),
        {| processing := false;
           log := [StStatus (py "Generating document analysis...")] |}).
Proof.
  repeat split; vm_compute; reflexivity.
Qed.

(** ** The pipeline *)

Lemma scan_events_send_nothing (w : World) (uploaded_file : list Byte.byte) :
  filter is_invoke (scan_events w uploaded_file ++ [StError scanned_message])
  = [].
Proof. unfold scan_events. now destruct (scan_check w uploaded_file). Qed.

Lemma process_document_scanned_run
      (w : World) (uploaded_file : list Byte.byte) (s : state) :
  scanned w uploaded_file = true ->
  process_document w uploaded_file s
  = (inr PyNone,
     {| processing := false;
        log := log s ++ scan_events w uploaded_file
               ++ [StError scanned_message] |}).
Proof.
  intros Hs. unfold process_document. run_monad.
  rewrite is_scanned_pdf_run, Hs.
  unfold log_append. simpl. now rewrite <- app_assoc.
Qed.

(** C7.  When [is_scanned_pdf] answers [True], [process_document] shows the
    message about scanned documents after whatever [is_scanned_pdf] wrote,
    clears the processing flag and returns [None]; it sends no request to
    the service. *)
Theorem process_document_rejects_scanned
        (w : World) (uploaded_file : list Byte.byte) (s : state) :
  fst (is_scanned_pdf w uploaded_file s) = inr true ->
  process_document w uploaded_file s
  = (inr PyNone,
     {| processing := false;
        log := log (snd (is_scanned_pdf w uploaded_file s))
               ++ [StError scanned_message] |})
  /\ requests (snd (process_document w uploaded_file s)) = requests s.
Proof.
  intros Hs. apply is_scanned_pdf_verdict in Hs.
  rewrite (process_document_scanned_run _ _ _ Hs), is_scanned_pdf_run.
  split.
  - unfold log_append. cbn [snd log]. now rewrite <- app_assoc.
  - unfold requests. cbn [snd log].
    now rewrite filter_app, scan_events_send_nothing, app_nil_r.
Qed.

(** A one-page PDF with 20 characters of text. *)
Lemma process_document_rejects_scanned_example :
  process_document
    (Script.world (inr [Script.text_page (repeat 97%N 20)]) [])
    [] Script.initial
  = (inr PyNone,
     {| processing := false; log := [StError scanned_message] |}).
Proof.
  rewrite (proj1 (process_document_rejects_scanned
                    (Script.world (inr [Script.text_page (repeat 97%N 20)]) [])
                    [] Script.initial eq_refl)).
  reflexivity.
Defined.

Lemma final_response_entries (document_type analysis mongo_obj_id : pyval) :
  dict_set [(py "document_type", document_type); (py "analysis", analysis)]
           (py "mongo_obj_id") mongo_obj_id
  = [(py "document_type", document_type); (py "analysis", analysis);
     (py "mongo_obj_id", mongo_obj_id)].
Proof. reflexivity. Qed.

Lemma requests_previewed (s : state) (text : pystr) :
  requests (previewed s text) = requests s.
Proof.
  unfold previewed. rewrite requests_log_append. simpl. apply app_nil_r.
Qed.

(** [process_document] on a document that is not scanned and whose pages
    can all be read. *)
Lemma process_document_run
      (w : World) (uploaded_file : list Byte.byte) (s : state)
      (pages : list Page) (texts : list pystr) :
  scan_check w uploaded_file = inr false ->
  pdfplumber_open w uploaded_file = inr pages ->
  page_texts pages = inr texts ->
  let text := join [newline] texts in
  let n := List.length (requests s) in
  let classification_result :=
    call_result w n (classification_message w text) in
  let s1 := log_append (previewed s text) (classification_events w n text) in
  process_document w uploaded_file s
  = match get classification_result "class" with
    | inl e => aborted s1 e
    | inr doc_class =>
        match get_document_analysis w doc_class text s1 with
        | (inl e, s2) => aborted s2 e
        | (inr analysis_result, s2) =>
            match get classification_result "category" with
            | inl e => aborted s2 e
            | inr document_type =>
                (inr (final_record w document_type analysis_result),
                 {| processing := false; log := log s2 |})
            end
        end
    end.
Proof.
  intros Hscan Hopen Htexts text n classification_result s1.
  unfold process_document. run_monad.
  rewrite is_scanned_pdf_run. unfold scanned, scan_events. rewrite Hscan.
  rewrite log_append_nil, Hopen, Htexts.
  rewrite !log_append_app. simpl app.
  fold text. fold (previewed s text).
  rewrite get_document_class_run, requests_previewed.
  fold n. fold classification_result. fold s1.
  destruct (get classification_result "class") as [e|doc_class];
    [reflexivity|].
  destruct (get_document_analysis w doc_class text s1) as [[e|an] s2];
    [reflexivity|].
  destruct (get classification_result "category") as [e|label];
    reflexivity.
Qed.

Lemma process_document_unreadable_page
      (w : World) (uploaded_file : list Byte.byte) (s : state)
      (pages : list Page) (e : exn) :
  scan_check w uploaded_file = inr false ->
  pdfplumber_open w uploaded_file = inr pages ->
  page_texts pages = inl e ->
  process_document w uploaded_file s
  = aborted {| processing := true; log := log s |} e.
Proof.
  intros Hscan Hopen Htexts. unfold process_document. run_monad.
  rewrite is_scanned_pdf_run. unfold scanned, scan_events. rewrite Hscan.
  rewrite log_append_nil, Hopen, Htexts. reflexivity.
Qed.

Lemma scan_check_opened (w : World) (uploaded_file : list Byte.byte) (b : bool) :
  scan_check w uploaded_file = inr b ->
  exists pages, pdfplumber_open w uploaded_file = inr pages.
Proof.
  unfold scan_check.
  destruct (pdfplumber_open w uploaded_file) as [e|pages]; [discriminate|].
  eauto.
Qed.

Lemma not_scanned_checked (w : World) (uploaded_file : list Byte.byte) :
  scanned w uploaded_file = false -> scan_check w uploaded_file = inr false.
Proof.
  unfold scanned. destruct (scan_check w uploaded_file) as [e|[|]];
    congruence.
Qed.

(** C5.  For a document that is not scanned and whose pages can all be
    read, the text [process_document] previews and sends for classification
    is the texts of all pages, in page order, joined by newlines; a page
    without text counts as the empty string. *)
Theorem process_document_extracts_every_page
        (w : World) (uploaded_file : list Byte.byte) (s : state)
        (pages : list Page) :
  fst (is_scanned_pdf w uploaded_file s) = inr false ->
  pdfplumber_open w uploaded_file = inr pages ->
  Forall readable pages ->
  let text := join [newline] (map page_text pages) in
  page_texts pages = inr (map page_text pages)
  /\ (forall p, extract_text p = inr None -> page_text p = [])
  /\ exists r rest,
       process_document w uploaded_file s
       = (inr r,
          {| processing := false;
             log := log s
                    ++ [StExpander (py "Preview extracted text");
                        StTextArea (py "Extracted Text") text;
                        StStatus (py "Classifying document type...");
                        InvokeModel (classification_message w text)]
                    ++ rest |}).
Proof.
  intros Hs Hopen Hread text. apply is_scanned_pdf_verdict in Hs.
  pose proof (page_texts_readable _ Hread) as Htexts.
  split; [exact Htexts|]. split; [intros p Hp; unfold page_text; now rewrite Hp|].
  rewrite (process_document_run _ _ s _ _ (not_scanned_checked _ _ Hs)
                                Hopen Htexts).
  fold text. cbv zeta.
  set (n := List.length (requests s)).
  set (cls := call_result w n (classification_message w text)).
  assert (Hlog : forall es,
             log (log_append
                    (log_append (previewed s text)
                                (classification_events w n text)) es)
             = log s
               ++ [StExpander (py "Preview extracted text");
                   StTextArea (py "Extracted Text") text;
                   StStatus (py "Classifying document type...");
                   InvokeModel (classification_message w text)]
               ++ (tl (call_events w n (classification_message w text))
                   ++ [StatusUpdate (py "Document classification complete!")])
               ++ es).
  { intros es. unfold previewed, classification_events, call_events, log_append.
    cbn [log processing tl app].
    repeat (rewrite <- app_assoc; cbn [app]). reflexivity. }
  destruct (get cls "class") as [e|doc_class].
  - unfold aborted. eexists _, _. f_equal. f_equal.
    rewrite <- (log_append_nil (log_append _ _)), Hlog.
    rewrite app_nil_r, <- !app_assoc. reflexivity.
  - destruct (get_document_analysis_grows w doc_class text
                (log_append (previewed s text) (classification_events w n text)))
      as (r & es & ->).
    destruct r as [e|an].
    + unfold aborted. eexists _, _. f_equal. f_equal.
      rewrite Hlog, <- !app_assoc. reflexivity.
    + destruct (get cls "category") as [e|label].
      * unfold aborted. eexists _, _. f_equal. f_equal.
        rewrite Hlog, <- !app_assoc. reflexivity.
      * eexists _, _. f_equal. f_equal.
        rewrite Hlog, <- !app_assoc. reflexivity.
Qed.

Lemma process_document_extracts_every_page_example :
  join [newline]
       (map page_text
            [Script.long_page; Script.blank_page; Script.text_page (py "end")])
  = repeat 97%N 120 ++ [newline; newline] ++ py "end"
  /\ exists r rest,
       process_document
         (Script.world
            (inr [Script.long_page; Script.blank_page;
                  Script.text_page (py "end")]) [])
         [] Script.initial
       = (inr r,
          {| processing := false;
             log := []
                    ++ [StExpander (py "Preview extracted text");
                        StTextArea (py "Extracted Text")
                          (repeat 97%N 120 ++ [newline; newline] ++ py "end");
                        StStatus (py "Classifying document type...");
                        InvokeModel
                          (classification_message
                             (Script.world
                                (inr [Script.long_page; Script.blank_page;
                                      Script.text_page (py "end")]) [])
                             (repeat 97%N 120 ++ [newline; newline]
                              ++ py "end"))]
                    ++ rest |}).
Proof.
  split; [reflexivity|].
  apply (proj2 (proj2
    (process_document_extracts_every_page
       (Script.world
          (inr [Script.long_page; Script.blank_page;
                Script.text_page (py "end")]) [])
       [] Script.initial
       [Script.long_page; Script.blank_page; Script.text_page (py "end")]
       eq_refl eq_refl
       (readable_pages
          [Script.long_page; Script.blank_page; Script.text_page (py "end")]
          eq_refl)))).
Defined.

(** C2, as the program has it.  When the classification call fails, which
    [bedrock_calling] reports by returning the error dict, no analysis
    request is sent: the only request of the run is the classification
    request.  The run does not stop there.  The class read from the error
    dict is [None], [get_document_analysis] answers "Invalid document
    class: None", and [process_document] returns a record whose
    [document_type] is [None] and whose [analysis] is that error dict,
    with an identifier from [insert_document]. *)
Theorem process_document_after_failed_classification
        (w : World) (uploaded_file : list Byte.byte) (s : state)
        (pages : list Page) (e : exn) :
  fst (is_scanned_pdf w uploaded_file s) = inr false ->
  pdfplumber_open w uploaded_file = inr pages ->
  Forall readable pages ->
  let text := join [newline] (map page_text pages) in
  answer w (List.length (requests s)) (classification_message w text)
  = inl e ->
  fst (process_document w uploaded_file s)
  = inr (PyDict
           [(py "result",
             PyDict
               [(py "document_type", PyNone);
                (py "analysis",
                 PyDict [(py "error",
                          PyStr (py "Invalid document class: None"))]);
                (py "mongo_obj_id", PyStr (py "doc_" ++ now_stamp w))])])
  /\ requests (snd (process_document w uploaded_file s))
     = requests s ++ [InvokeModel (classification_message w text)]
  /\ processing (snd (process_document w uploaded_file s)) = false.
Proof.
  intros Hs Hopen Hread text Ha. apply is_scanned_pdf_verdict in Hs.
  rewrite (process_document_run _ _ s _ _ (not_scanned_checked _ _ Hs)
                                Hopen (page_texts_readable _ Hread)).
  fold text. cbv zeta. unfold call_result. rewrite Ha.
  change (get (error_dict (exn_msg e)) "class") with (@inr exn _ PyNone).
  change (get (error_dict (exn_msg e)) "category") with (@inr exn _ PyNone).
  cbv iota. rewrite get_document_analysis_run.
  change (dict_find (prompt_mapping w) PyNone)
    with (@inr exn (option (pystr -> pystr -> pystr)) None).
  cbv iota. repeat split.
  cbn [snd]. rewrite requests_set_processing.
  rewrite !requests_log_append, requests_previewed.
  unfold classification_events, call_events. rewrite Ha.
  cbn. now rewrite app_nil_r.
Qed.

(** C2 as stated fails on a classification response whose body is not JSON:
    the run sends the one classification request and then returns a record,
    half filled, instead of an error. *)
Lemma process_document_continues_after_failed_classification :
  answer (Script.world (inr [Script.long_page; Script.blank_page])
                       [inr (py "<html>503 Service Unavailable</html>")])
         0
         (classification_message
            (Script.world (inr [Script.long_page; Script.blank_page])
                          [inr (py "<html>503 Service Unavailable</html>")])
            (repeat 97%N 120 ++ [newline]))
  = inl Script.decode_error
  /\ fst (process_document
            (Script.world (inr [Script.long_page; Script.blank_page])
                          [inr (py "<html>503 Service Unavailable</html>")])
            [] Script.initial)
     = inr (PyDict
              [(py "result",
                PyDict
                  [(py "document_type", PyNone);
                   (py "analysis",
                    PyDict [(py "error",
                             PyStr (py "Invalid document class: None"))]);
                   (py "mongo_obj_id", PyStr (py "doc_20250131120000"))])])
  /\ List.length
       (requests
          (snd (process_document
                  (Script.world (inr [Script.long_page; Script.blank_page])
                                [inr (py "<html>503 Service Unavailable</html>")])
                  [] Script.initial)))
     = 1%nat.
Proof. repeat split; vm_compute; reflexivity. Qed.

Lemma process_document_after_failed_classification_example :
  fst (process_document
         (Script.world (inr [Script.long_page; Script.blank_page])
                       [inr (py "<html>503 Service Unavailable</html>")])
         [] Script.initial)
  = inr (PyDict
           [(py "result",
             PyDict
               [(py "document_type", PyNone);
                (py "analysis",
                 PyDict [(py "error",
                          PyStr (py "Invalid document class: None"))]);
                (py "mongo_obj_id", PyStr (py "doc_20250131120000"))])]).
Proof.
  apply (proj1
    (process_document_after_failed_classification
       (Script.world (inr [Script.long_page; Script.blank_page])
                     [inr (py "<html>503 Service Unavailable</html>")])
       [] Script.initial [Script.long_page; Script.blank_page]
       Script.decode_error eq_refl eq_refl
       (readable_pages [Script.long_page; Script.blank_page] eq_refl)
       eq_refl)).
Defined.

(** C3, as the program has it.  [get_document_class] returns the object the
    classification call produced as it is and shows no error, whatever the
    object holds.  A class that is absent (read as [None]) or an integer
    outside 0..5 is turned down only afterwards, by
    [get_document_analysis]: it picks no prompt, sends no request, shows
    "Invalid document class: ..." and returns the error dict with that
    message. *)
Theorem get_document_class_returns_object_unchecked
        (w : World) (pdf_text : pystr) (s : state) (obj : pyval) :
  answer w (List.length (requests s)) (classification_message w pdf_text)
  = inr obj ->
  get_document_class w pdf_text s
  = (inr obj,
     log_append s
       [StStatus (py "Classifying document type...");
        InvokeModel (classification_message w pdf_text);
        StatusUpdate (py "Document classification complete!")])
  /\ (forall (doc_class : pyval) (s1 : state),
         get obj "class" = inr doc_class ->
         doc_class = PyNone
         \/ (exists z : Z, doc_class = PyInt z /\ (z < 0 \/ 5 < z)%Z) ->
         get_document_analysis w doc_class pdf_text s1
         = (inr (PyDict [(py "error",
                          PyStr (py "Invalid document class: "
                                 ++ str_of w doc_class))]),
            log_append s1
              [StStatus (py "Generating document analysis...");
               StError (py "Invalid document class: "
                        ++ str_of w doc_class)])).
Proof.
  intros Ha. split.
  - rewrite get_document_class_run.
    unfold call_result, classification_events, call_events. now rewrite Ha.
  - intros doc_class s1 _ Hout. rewrite get_document_analysis_run.
    assert (Hin : in_mapping w doc_class = inr false).
    { destruct Hout as [-> | (z & -> & Hz)]; [reflexivity|].
      rewrite in_mapping_int. f_equal.
      destruct (Z.leb_spec 0 z); destruct (Z.leb_spec z 5); simpl;
        try reflexivity; lia. }
    unfold in_mapping in Hin.
    destruct (dict_find (prompt_mapping w) doc_class) as [e|[build|]];
      try discriminate.
    reflexivity.
Qed.

Lemma get_document_class_returns_object_unchecked_example :
  get_document_class
    (Script.replying (pyq "{\'class\': 9, \'category\': \'Passport\'}"))
    (py "text") Script.initial
  = (inr (PyDict [(py "class", PyInt 9);
                  (py "category", PyStr (py "Passport"))]),
     log_append Script.initial
       [StStatus (py "Classifying document type...");
        InvokeModel
          (classification_message
             (Script.replying
                (pyq "{\'class\': 9, \'category\': \'Passport\'}"))
             (py "text"));
        StatusUpdate (py "Document classification complete!")]).
Proof.
  apply (proj1
    (get_document_class_returns_object_unchecked
       (Script.replying (pyq "{\'class\': 9, \'category\': \'Passport\'}"))
       (py "text") Script.initial
       (PyDict [(py "class", PyInt 9);
                (py "category", PyStr (py "Passport"))])
       eq_refl)).
Defined.

(** C3 as stated fails: with the class 9, and with no class at all,
    [get_document_class] returns the object and shows no error, and
    [process_document] goes on to return a record that carries the label
    of the object. *)
Lemma get_document_class_accepts_invalid_class :
  get_document_class
    (Script.replying (pyq "{\'class\': 9, \'category\': \'Passport\'}"))
    (py "text") Script.initial
  = (inr (PyDict [(py "class", PyInt 9);
                  (py "category", PyStr (py "Passport"))]),
     {| processing := false;
        log := [StStatus (py "Classifying document type...");
                InvokeModel
                  (message (py "Classify the document.")
                           (py "Document: text"));
                StatusUpdate (py "Document classification complete!")] |})
  /\ fst (get_document_class
            (Script.replying (pyq "{\'category\': \'Passport\'}"))
            (py "text") Script.initial)
     = inr (PyDict [(py "category", PyStr (py "Passport"))])
  /\ fst (process_document
            (Script.world
               (inr [Script.long_page])
               [inr (Script.body_with
                       (pyq "{\'class\': 9, \'category\': \'Passport\'}"))])
            [] Script.initial)
     = inr (PyDict
              [(py "result",
                PyDict
                  [(py "document_type", PyStr (py "Passport"));
                   (py "analysis",
                    PyDict [(py "error",
                             PyStr (py "Invalid document class: 9"))]);
                   (py "mongo_obj_id", PyStr (py "doc_20250131120000"))])]).
Proof. repeat split; vm_compute; reflexivity. Qed.

(** C9.  A run of [process_document] that returns a record (anything but
    [None]) went through extraction, classification and analysis, and the
    record holds, under "result": as [document_type] the value of the
    "category" entry of the classification result, as [analysis] the whole
    value [get_document_analysis] returned, and as [mongo_obj_id] the
    identifier [insert_document] made, which is "doc_" followed by the
    time stamp and so is not empty. *)
Theorem process_document_record
        (w : World) (uploaded_file : list Byte.byte) (s : state) (r : pyval) :
  fst (process_document w uploaded_file s) = inr r ->
  r <> PyNone ->
  exists pages texts classification_result doc_class analysis_result
         document_type s1 s2,
    pdfplumber_open w uploaded_file = inr pages
    /\ page_texts pages = inr texts
    /\ get_document_class w (join [newline] texts)
                          (previewed s (join [newline] texts))
       = (inr classification_result, s1)
    /\ get classification_result "class" = inr doc_class
    /\ get_document_analysis w doc_class (join [newline] texts) s1
       = (inr analysis_result, s2)
    /\ get classification_result "category" = inr document_type
    /\ r = PyDict
             [(py "result",
               PyDict
                 [(py "document_type", document_type);
                  (py "analysis", analysis_result);
                  (py "mongo_obj_id",
                   PyStr (insert_document w
                            (PyDict [(py "document_type", document_type);
                                     (py "analysis", analysis_result)])))])]
    /\ insert_document w
         (PyDict [(py "document_type", document_type);
                  (py "analysis", analysis_result)])
       = py "doc_" ++ now_stamp w
    /\ (4 <= len (insert_document w
                    (PyDict [(py "document_type", document_type);
                             (py "analysis", analysis_result)])))%Z.
Proof.
  intros Hr Hsome.
  destruct (scanned w uploaded_file) eqn:Hs.
  { rewrite (process_document_scanned_run _ _ _ Hs) in Hr. simpl in Hr.
    congruence. }
  pose proof (not_scanned_checked _ _ Hs) as Hscan.
  destruct (scan_check_opened _ _ _ Hscan) as (pages & Hopen).
  destruct (page_texts pages) as [e|texts] eqn:Htexts.
  { rewrite (process_document_unreadable_page _ _ s _ _ Hscan Hopen Htexts)
      in Hr.
    simpl in Hr. congruence. }
  rewrite (process_document_run _ _ s _ _ Hscan Hopen Htexts) in Hr.
  cbv zeta in Hr.
  pose proof (get_document_class_run w (join [newline] texts)
                (previewed s (join [newline] texts))) as Hclass.
  rewrite requests_previewed in Hclass.
  set (cls := call_result w (List.length (requests s))
                (classification_message w (join [newline] texts))) in *.
  set (s1 := log_append (previewed s (join [newline] texts))
               (classification_events w (List.length (requests s))
                  (join [newline] texts))) in *.
  destruct (get cls "class") as [e|doc_class] eqn:Hc;
    [simpl in Hr; congruence|].
  destruct (get_document_analysis w doc_class (join [newline] texts) s1)
    as [[e|an] s2] eqn:Han; [simpl in Hr; congruence|].
  destruct (get cls "category") as [e|label] eqn:Hl;
    [simpl in Hr; congruence|].
  cbn [fst] in Hr. injection Hr as <-.
  exists pages, texts, cls, doc_class, an, label, s1, s2.
  repeat split; try assumption.
  unfold insert_document, len. rewrite length_app. simpl List.length. lia.
Qed.

(** A two-page PDF, the classification answer
    [{"class":0,"category":"Passport"}] and the analysis answer
    [{"summary":"...", "extracted_fields":{"name":"Jane Doe"}}]. *)
Lemma process_document_record_example :
  fst (process_document
         (Script.world
            (inr [Script.long_page; Script.text_page (py "second page")])
            [inr (Script.body_with
                    (pyq "{\'class\':0,\'category\':\'Passport\'}"));
             inr (Script.body_with
                    (pyq "{\'summary\':\'...\', \'extracted_fields\':{\'name\':\'Jane Doe\'}}"))])
         [] Script.initial)
  = inr (PyDict
           [(py "result",
             PyDict
               [(py "document_type", PyStr (py "Passport"));
                (py "analysis",
                 PyDict
                   [(py "summary", PyStr (py "..."));
                    (py "extracted_fields",
                     PyDict [(py "name", PyStr (py "Jane Doe"))])]);
                (py "mongo_obj_id", PyStr (py "doc_20250131120000"))])])
  /\ exists classification_result s1,
       get_document_class
         (Script.world
            (inr [Script.long_page; Script.text_page (py "second page")])
            [inr (Script.body_with
                    (pyq "{\'class\':0,\'category\':\'Passport\'}"));
             inr (Script.body_with
                    (pyq "{\'summary\':\'...\', \'extracted_fields\':{\'name\':\'Jane Doe\'}}"))])
         (join [newline] [repeat 97%N 120; py "second page"])
         (previewed Script.initial
                    (join [newline] [repeat 97%N 120; py "second page"]))
       = (inr classification_result, s1)
       /\ get classification_result "category" = inr (PyStr (py "Passport")).
Proof.
  split; [vm_compute; reflexivity|].
  destruct (process_document_record
              (Script.world
                 (inr [Script.long_page; Script.text_page (py "second page")])
                 [inr (Script.body_with
                         (pyq "{\'class\':0,\'category\':\'Passport\'}"));
                  inr (Script.body_with
                         (pyq "{\'summary\':\'...\', \'extracted_fields\':{\'name\':\'Jane Doe\'}}"))])
              [] Script.initial
              (PyDict
                 [(py "result",
                   PyDict
                     [(py "document_type", PyStr (py "Passport"));
                      (py "analysis",
                       PyDict
                         [(py "summary", PyStr (py "..."));
                          (py "extracted_fields",
                           PyDict [(py "name", PyStr (py "Jane Doe"))])]);
                      (py "mongo_obj_id",
                       PyStr (py "doc_20250131120000"))])]))
    as (pages & texts & cls & c & an & label & s1 & s2 & Hopen & Htexts
        & Hclass & _ & _ & Hlabel & Hrec & _).
  - vm_compute; reflexivity.
  - discriminate.
  - injection Hopen as <-. injection Htexts as <-.
    injection Hrec as Hl _. exists cls, s1. split; [exact Hclass|].
    rewrite Hlabel. f_equal. symmetry. exact Hl.
Defined.

(** ** Documents that cannot be read *)

Lemma scan_check_sample
      (w : World) (pdf_file : list Byte.byte) (pages : list Page) :
  pdfplumber_open w pdf_file = inr pages ->
  scan_check w pdf_file
  = match pages with
    | [] => inr true
    | _ :: _ =>
        match sampled_text (firstn 3 pages) [] with
        | inl e => inl e
        | inr text_content =>
            inr (negb (100 <? len (strip text_content))%Z)
        end
    end.
Proof.
  intros Hopen. unfold scan_check. rewrite Hopen.
  destruct pages as [|p ps]; [reflexivity|].
  change (Nat.eqb (List.length (p :: ps)) 0) with false.
  cbv iota zeta. rewrite firstn_min_length.
  destruct (sampled_text (firstn 3 (p :: ps)) []) as [e|t]; [reflexivity|].
  now destruct (100 <? len (strip t))%Z.
Qed.

Lemma page_texts_first_failure (good rest : list Page) (bad : Page) (e : exn) :
  Forall readable good ->
  extract_text bad = inl e ->
  page_texts (good ++ bad :: rest) = inl e.
Proof.
  intros Hgood Hbad. induction Hgood as [|p ps [t Hp] _ IH]; simpl.
  - now rewrite Hbad.
  - now rewrite Hp, IH.
Qed.

Lemma requests_aborted (s : state) (e : exn) :
  requests (snd (aborted s e)) = requests s.
Proof.
  unfold aborted, requests. cbn [snd log]. rewrite filter_app. apply app_nil_r.
Qed.

Lemma sampled_text_first_failure
      (good rest : list Page) (bad : Page) (e : exn) (acc : pystr) :
  Forall readable good ->
  extract_text bad = inl e ->
  sampled_text (good ++ bad :: rest) acc = inl e.
Proof.
  intros Hgood Hbad. revert acc.
  induction Hgood as [|p ps [t Hp] _ IH]; intros acc; cbn [app sampled_text].
  - now rewrite Hbad.
  - rewrite Hp. destruct t as [[|c text]|]; apply IH.
Qed.

Lemma firstn_before_failure (A : Type) (good rest : list A) (bad : A) :
  (List.length good < 3)%nat ->
  exists rest', firstn 3 (good ++ bad :: rest) = good ++ bad :: rest'.
Proof.
  intros H. rewrite firstn_app, (firstn_all2 good) by lia.
  destruct (3 - List.length good)%nat as [|k] eqn:Hk; [lia|].
  cbn [firstn]. eauto.
Qed.

Lemma firstn_after_three (A : Type) (good tail : list A) :
  (3 <= List.length good)%nat ->
  firstn 3 (good ++ tail) = firstn 3 good.
Proof.
  intros H. rewrite firstn_app.
  replace (3 - List.length good)%nat with 0%nat by lia.
  cbn [firstn]. apply app_nil_r.
Qed.

Lemma readable_firstn (n : nat) (pages : list Page) :
  Forall readable pages -> Forall readable (firstn n pages).
Proof.
  intros H. rewrite <- (firstn_skipn n pages) in H.
  now apply Forall_app in H.
Qed.

(** A scan check that raises: the document is reported as scanned. *)
Lemma scan_check_raised_run
      (w : World) (pdf_file : list Byte.byte) (s : state) (e : exn) :
  scan_check w pdf_file = inl e ->
  is_scanned_pdf w pdf_file s
  = (inr true, log_append s [StError (py "Error checking PDF: " ++ exn_msg e)])
  /\ process_document w pdf_file s
     = (inr PyNone,
        {| processing := false;
           log := log s ++ [StError (py "Error checking PDF: " ++ exn_msg e);
                            StError scanned_message] |}).
Proof.
  intros Hcheck.
  assert (Hs : scanned w pdf_file = true)
    by (unfold scanned; now rewrite Hcheck).
  split.
  - rewrite is_scanned_pdf_run. unfold scanned, scan_events.
    now rewrite Hcheck.
  - rewrite (process_document_scanned_run _ _ _ Hs). unfold scan_events.
    now rewrite Hcheck.
Qed.

(** A run that ends with one of the three messages below has sent
    nothing. *)
Lemma requests_after_messages (s : state) (msgs : list pystr) :
  requests {| processing := false; log := log s ++ map StError msgs |}
  = requests s.
Proof.
  unfold requests. cbn [log]. rewrite filter_app.
  replace (filter is_invoke (map StError msgs)) with (@nil event);
    [apply app_nil_r|].
  induction msgs as [|m r IH]; [reflexivity|exact IH].
Qed.

(** C6, as the program has it.  A document that cannot be opened, or that
    has a page that cannot be read, never makes [is_scanned_pdf] or
    [process_document] raise: the run returns [None] with the flag cleared
    and sends nothing.  It is treated as scanned when the failure is met by
    the scan check, that is, on opening or on one of the first three pages:
    [is_scanned_pdf] shows "Error checking PDF: ..." and answers [True],
    and [process_document] adds the message about scanned documents.  When
    the first page that cannot be read comes after the third, the scan
    check does not meet it: the verdict is that of the first three pages
    alone, without a message, and a document that passes it is not treated
    as scanned; its run ends with "Error processing document: ...". *)
Theorem is_scanned_pdf_unreadable
        (w : World) (pdf_file : list Byte.byte) (s : state) (e : exn)
        (pages good : list Page) (bad : Page) :
  pdfplumber_open w pdf_file = inl e
  \/ (pdfplumber_open w pdf_file = inr pages
      /\ first_unreadable pages good bad e) ->
  (exists verdict, fst (is_scanned_pdf w pdf_file s) = inr verdict)
  /\ fst (process_document w pdf_file s) = inr PyNone
  /\ processing (snd (process_document w pdf_file s)) = false
  /\ requests (snd (process_document w pdf_file s)) = requests s
  /\ (pdfplumber_open w pdf_file = inl e \/ (List.length good < 3)%nat ->
      is_scanned_pdf w pdf_file s
      = (inr true,
         log_append s [StError (py "Error checking PDF: " ++ exn_msg e)])
      /\ process_document w pdf_file s
         = (inr PyNone,
            {| processing := false;
               log := log s
                      ++ [StError (py "Error checking PDF: " ++ exn_msg e);
                          StError scanned_message] |}))
  /\ (pdfplumber_open w pdf_file = inr pages ->
      (3 <= List.length good)%nat ->
      let text := List.concat (map page_text (firstn 3 good)) in
      is_scanned_pdf w pdf_file s = (inr (len (strip text) <=? 100)%Z, s)
      /\ ((len (strip text) <= 100)%Z ->
          process_document w pdf_file s
          = (inr PyNone,
             {| processing := false;
                log := log s ++ [StError scanned_message] |}))
      /\ ((100 < len (strip text))%Z ->
          process_document w pdf_file s
          = (inr PyNone,
             {| processing := false;
                log := log s
                       ++ [StError (py "Error processing document: "
                                    ++ exn_msg e)] |}))).
Proof.
  intros H.
  assert (Hraised :
            scan_check w pdf_file = inl e ->
            (exists verdict, fst (is_scanned_pdf w pdf_file s) = inr verdict)
            /\ fst (process_document w pdf_file s) = inr PyNone
            /\ processing (snd (process_document w pdf_file s)) = false
            /\ requests (snd (process_document w pdf_file s)) = requests s
            /\ is_scanned_pdf w pdf_file s
               = (inr true,
                  log_append s
                    [StError (py "Error checking PDF: " ++ exn_msg e)])
            /\ process_document w pdf_file s
               = (inr PyNone,
                  {| processing := false;
                     log := log s
                            ++ [StError (py "Error checking PDF: "
                                         ++ exn_msg e);
                                StError scanned_message] |})).
  { intros Hcheck.
    destruct (scan_check_raised_run w pdf_file s e Hcheck) as [Hscan Hrun].
    rewrite Hscan, Hrun. cbn [fst snd processing].
    repeat split; eauto.
    exact (requests_after_messages
             s [py "Error checking PDF: " ++ exn_msg e; scanned_message]). }
  destruct H as [Hopen | (Hopen & rest & -> & Hgood & Hbad)].
  - (* the bytes cannot be opened *)
    assert (Hcheck : scan_check w pdf_file = inl e)
      by (unfold scan_check; now rewrite Hopen).
    destruct (Hraised Hcheck) as (H1 & H2 & H3 & H4 & H5 & H6).
    repeat split; try assumption; congruence.
  - destruct (Nat.lt_ge_cases (List.length good) 3) as [Hearly | Hlate].
    + (* one of the first three pages cannot be read *)
      assert (Hcheck : scan_check w pdf_file = inl e).
      { rewrite (scan_check_sample _ _ _ Hopen).
        destruct (firstn_before_failure _ good rest bad Hearly)
          as (rest' & ->).
        rewrite (sampled_text_first_failure _ _ _ _ _ Hgood Hbad).
        now destruct good. }
      destruct (Hraised Hcheck) as (H1 & H2 & H3 & H4 & H5 & H6).
      repeat split; try assumption; intros; lia.
    + (* every page checked can be read *)
      set (text := List.concat (map page_text (firstn 3 good))).
      assert (Hcheck : scan_check w pdf_file
                       = inr (len (strip text) <=? 100)%Z).
      { rewrite (scan_check_sample _ _ _ Hopen).
        rewrite (firstn_after_three _ good (bad :: rest) Hlate).
        rewrite (sampled_text_readable _ _ (readable_firstn 3 _ Hgood)).
        cbn [app]. fold text.
        rewrite Z.ltb_antisym, Bool.negb_involutive.
        destruct good; [cbn [List.length] in Hlate; lia|reflexivity]. }
      assert (Hscan : is_scanned_pdf w pdf_file s
                      = (inr (len (strip text) <=? 100)%Z, s)).
      { rewrite is_scanned_pdf_run. unfold scanned, scan_events.
        now rewrite Hcheck, log_append_nil. }
      assert (Hshort : (len (strip text) <= 100)%Z ->
                       process_document w pdf_file s
                       = (inr PyNone,
                          {| processing := false;
                             log := log s ++ [StError scanned_message] |})).
      { intros Hle.
        assert (Hs : scanned w pdf_file = true).
        { unfold scanned. rewrite Hcheck. now apply Z.leb_le. }
        rewrite (process_document_scanned_run _ _ _ Hs). unfold scan_events.
        now rewrite Hcheck. }
      assert (Hlong : (100 < len (strip text))%Z ->
                      process_document w pdf_file s
                      = (inr PyNone,
                         {| processing := false;
                            log := log s
                                   ++ [StError (py "Error processing document: "
                                                ++ exn_msg e)] |})).
      { intros Hgt.
        assert (Hfalse : scan_check w pdf_file = inr false).
        { rewrite Hcheck. f_equal. apply Z.leb_gt. exact Hgt. }
        rewrite (process_document_unreadable_page
                   _ _ s _ _ Hfalse Hopen
                   (page_texts_first_failure _ _ _ _ Hgood Hbad)).
        reflexivity. }
      split; [rewrite Hscan; cbn [fst]; eauto|].
      assert (Hrun : process_document w pdf_file s
                     = (inr PyNone,
                        {| processing := false;
                           log := log s ++ map StError
                                    [if (len (strip text) <=? 100)%Z
                                     then scanned_message
                                     else py "Error processing document: "
                                          ++ exn_msg e] |})).
      { destruct (len (strip text) <=? 100)%Z eqn:Hle.
        - apply Hshort. now apply Z.leb_le.
        - apply Hlong. now apply Z.leb_gt. }
      split; [now rewrite Hrun|].
      split; [now rewrite Hrun|].
      split; [rewrite Hrun; cbn [snd]; apply requests_after_messages|].
      split.
      * intros [Hfail | Hlt]; [congruence|lia].
      * intros _ _. fold text. cbv zeta.
        split; [exact Hscan|]. split; assumption.
Qed.

(** A file that is no PDF at all, and a document whose second page cannot
    be read. *)
Lemma is_scanned_pdf_unreadable_example :
  process_document
    (Script.world (inl (Exn "PDFSyntaxError" (py "No /Root object!"))) [])
    [] Script.initial
  = (inr PyNone,
     {| processing := false;
        log := [StError (py "Error checking PDF: No /Root object!");
                StError scanned_message] |})
  /\ is_scanned_pdf
       (Script.world
          (inr [Script.long_page;
                {| extract_text := inl (Exn "PDFSyntaxError" (py "bad page")) |};
                Script.long_page])
          [])
       [] Script.initial
     = (inr true,
        {| processing := false;
           log := [StError (py "Error checking PDF: bad page")] |}).
Proof.
  split.
  - destruct (is_scanned_pdf_unreadable
                (Script.world
                   (inl (Exn "PDFSyntaxError" (py "No /Root object!"))) [])
                [] Script.initial
                (Exn "PDFSyntaxError" (py "No /Root object!"))
                [] [] Script.blank_page
                (or_introl eq_refl))
      as (_ & _ & _ & _ & Hearly & _).
    exact (proj2 (Hearly (or_introl eq_refl))).
  - destruct (is_scanned_pdf_unreadable
                (Script.world
                   (inr [Script.long_page;
                         {| extract_text :=
                              inl (Exn "PDFSyntaxError" (py "bad page")) |};
                         Script.long_page])
                   [])
                [] Script.initial
                (Exn "PDFSyntaxError" (py "bad page"))
                [Script.long_page;
                 {| extract_text :=
                      inl (Exn "PDFSyntaxError" (py "bad page")) |};
                 Script.long_page]
                [Script.long_page]
                {| extract_text :=
                     inl (Exn "PDFSyntaxError" (py "bad page")) |}
                (or_intror
                   (conj eq_refl
                         (ex_intro _ [Script.long_page]
                            (conj eq_refl
                               (conj (readable_pages [Script.long_page]
                                                     eq_refl)
                                     eq_refl))))))
      as (_ & _ & _ & _ & Hearly & _).
    exact (proj1 (Hearly (or_intror (le_S 2 2 (le_n 2))))).
Defined.

(** C6 as stated fails on a document whose fourth page cannot be read
    while its first three pages hold enough text: the scan check does not
    report it as scanned and shows nothing, and the run ends with the
    message of [process_document]'s own handler, not with the message about
    scanned documents. *)
Lemma is_scanned_pdf_misses_later_page :
  extract_text
    (nth 3 [Script.long_page; Script.long_page; Script.long_page;
            {| extract_text := inl (Exn "PDFSyntaxError" (py "bad page")) |}]
         Script.blank_page)
  = inl (Exn "PDFSyntaxError" (py "bad page"))
  /\ is_scanned_pdf
       (Script.world
          (inr [Script.long_page; Script.long_page; Script.long_page;
                {| extract_text := inl (Exn "PDFSyntaxError" (py "bad page")) |}])
          [])
       [] Script.initial
     = (inr false, Script.initial)
  /\ process_document
       (Script.world
          (inr [Script.long_page; Script.long_page; Script.long_page;
                {| extract_text := inl (Exn "PDFSyntaxError" (py "bad page")) |}])
          [])
       [] Script.initial
     = (inr PyNone,
        {| processing := false;
           log := [StError (py "Error processing document: bad page")] |}).
Proof.
  repeat split; vm_compute; reflexivity.
Qed.

(* ================================================================= *)
(** * Further properties of the program *)

(** ** The inference call, continued *)

Lemma call_events_requests (w : World) (n : nat) (content : pystr) :
  filter is_invoke (call_events w n content) = [InvokeModel content].
Proof.
  unfold call_events. now destruct (answer w n content).
Qed.

(** What the call makes of a response body that decodes to an object of
    the wrong shape: without a "content" entry, with an empty "content"
    list, or with a first block whose "text" is missing or is not a string,
    the call returns the error dict with the text of the exception Python
    raises on that access.  Only the first block of "content" is read. *)
Theorem bedrock_calling_malformed_body
        (w : World) (system_prompt prompt_type pdf_text : pystr) (s : state)
        (body : pystr) (d : list (pystr * pyval)) :
  invoke_model w (List.length (requests s))
               (message system_prompt prompt_type) = inr body ->
  json_loads w body = inr (PyDict d) ->
  let r := fst (bedrock_calling w system_prompt prompt_type pdf_text s) in
  (dict_lookup d (py "content") = None ->
   r = inr (error_dict (py "'NoneType' object is not subscriptable")))
  /\ (dict_lookup d (py "content") = Some (PyList []) ->
      r = inr (error_dict (py "list index out of range")))
  /\ (forall block others,
         dict_lookup d (py "content") = Some (PyList (PyDict block :: others)) ->
         (dict_lookup block (py "text") = None ->
          r = inr (error_dict
                     (py "'NoneType' object has no attribute 'find'")))
         /\ (forall v,
                dict_lookup block (py "text") = Some v ->
                (forall t, v <> PyStr t) ->
                r = inr (error_dict
                           (py ("'" ++ type_name v
                                ++ "' object has no attribute 'find'")%string)))
         /\ (forall text,
                dict_lookup block (py "text") = Some (PyStr text) ->
                r = inr (match json_loads w (braced text) with
                         | inr payload => payload
                         | inl e => error_dict (exn_msg e)
                         end))).
Proof.
  intros Hbody Hdec r. subst r. rewrite bedrock_calling_run. cbn [fst].
  unfold call_result, answer, response_text_of. rewrite Hbody, Hdec.
  unfold get. repeat split.
  - intros ->. reflexivity.
  - intros ->. reflexivity.
  - rewrite H. cbn [item0]. now intros ->.
  - rewrite H. cbn [item0]. intros v -> Hv.
    destruct v; try reflexivity. now destruct (Hv s0).
  - rewrite H. cbn [item0]. intros text ->. reflexivity.
Qed.

Lemma bedrock_calling_malformed_body_example :
  fst (bedrock_calling
         (Script.world (inr []) [inr (pyq "{'content': []}")])
         (py "system") (py "user") (py "text") Script.initial)
  = inr (error_dict (py "list index out of range")).
Proof.
  apply (proj1 (proj2
    (bedrock_calling_malformed_body
       (Script.world (inr []) [inr (pyq "{'content': []}")])
       (py "system") (py "user") (py "text") Script.initial
       (pyq "{'content': []}") [(py "content", PyList [])]
       eq_refl eq_refl))).
  reflexivity.
Defined.

(** ** Dispatch on the document class, continued *)

(** The two prompt tables have the same keys, so [get_document_analysis]
    never ends in [KeyError]: the only exception it can raise is the
    [TypeError] of a class that cannot be hashed, and then nothing has been
    sent.  Its result is otherwise always a value. *)
Theorem get_document_analysis_raises_only_unhashable
        (w : World) (doc_class : pyval) (pdf_text : pystr) (s : state) :
  match fst (get_document_analysis w doc_class pdf_text s) with
  | inl e =>
      hashable doc_class = false
      /\ e = Exn "TypeError"
               (py ("unhashable type: '" ++ type_name doc_class ++ "'")%string)
      /\ requests (snd (get_document_analysis w doc_class pdf_text s))
         = requests s
  | inr _ => hashable doc_class = true
  end.
Proof.
  rewrite get_document_analysis_run.
  destruct (dict_find (prompt_mapping w) doc_class) as [e|[build|]] eqn:Hf.
  - cbn [fst snd]. unfold dict_find in Hf.
    destruct (hashable doc_class); [discriminate|].
    injection Hf as <-. repeat split.
    rewrite requests_log_append. apply app_nil_r.
  - destruct (dict_find_both_tables _ _ _ Hf) as (_ & sys & ->).
    cbn [fst]. unfold dict_find in Hf. now destruct (hashable doc_class).
  - cbn [fst]. unfold dict_find in Hf. now destruct (hashable doc_class).
Qed.



(** The membership test compares with [==], for which [True] is 1 and
    [False] is 0: a class [true] is analysed as class 1 and a class [false]
    as class 0. *)
Theorem get_document_analysis_bool_class
        (w : World) (b : bool) (pdf_text : pystr) (s : state) :
  get_document_analysis w (PyBool b) pdf_text s
  = get_document_analysis w (PyInt (if b then 1 else 0)) pdf_text s.
Proof.
  rewrite !get_document_analysis_run. destruct b; reflexivity.
Qed.

(** ** Scan detection, continued *)

Lemma lstrip_length (s : pystr) : (List.length (lstrip s) <= List.length s)%nat.
Proof.
  induction s as [|c r IH]; simpl; [lia|].
  destruct (isspace c); simpl; lia.
Qed.

Lemma strip_length (s : pystr) : (len (strip s) <= len s)%Z.
Proof.
  unfold len, strip, rstrip. rewrite length_rev.
  pose proof (lstrip_length (rev (lstrip s))) as H1.
  rewrite length_rev in H1. pose proof (lstrip_length s). lia.
Qed.

Lemma lstrip_spaces (s : pystr) : forallb isspace s = true -> lstrip s = [].
Proof.
  induction s as [|c r IH]; simpl; [reflexivity|].
  intros H. apply andb_prop in H. destruct H as [-> H]. now apply IH.
Qed.

Lemma strip_spaces (s : pystr) : forallb isspace s = true -> strip s = [].
Proof.
  intros H. unfold strip, rstrip. now rewrite (lstrip_spaces _ H).
Qed.

(** [is_scanned_pdf] looks at the first three pages only: two documents
    that agree on their first three pages get the same verdict and the same
    messages, whatever their other pages hold, text or a page that cannot
    be read. *)
Theorem is_scanned_pdf_reads_three_pages
        (w w' : World) (pdf_file pdf_file' : list Byte.byte) (s : state)
        (pages pages' : list Page) :
  pdfplumber_open w pdf_file = inr pages ->
  pdfplumber_open w' pdf_file' = inr pages' ->
  firstn 3 pages = firstn 3 pages' ->
  is_scanned_pdf w pdf_file s = is_scanned_pdf w' pdf_file' s.
Proof.
  intros Hopen Hopen' Hsame. rewrite !is_scanned_pdf_run.
  unfold scanned, scan_events.
  rewrite (scan_check_sample _ _ _ Hopen), (scan_check_sample _ _ _ Hopen').
  rewrite <- Hsame.
  destruct pages as [|p ps], pages' as [|p' ps']; try discriminate;
    reflexivity.
Qed.

(** Three pages without text in front of a page of 120 letters, and in
    front of a page that cannot be read: both documents are scanned. *)
Lemma is_scanned_pdf_reads_three_pages_example :
  is_scanned_pdf
    (Script.world
       (inr [Script.blank_page; Script.blank_page; Script.blank_page;
             Script.long_page]) [])
    [] Script.initial
  = (inr true, Script.initial)
  /\ is_scanned_pdf
       (Script.world
          (inr [Script.blank_page; Script.blank_page; Script.blank_page;
                {| extract_text := inl (Exn "PDFSyntaxError" (py "bad page")) |}])
          [])
       [] Script.initial
     = (inr true, Script.initial).
Proof.
  split.
  - reflexivity.
  - rewrite <- (is_scanned_pdf_reads_three_pages
                  (Script.world
                     (inr [Script.blank_page; Script.blank_page;
                           Script.blank_page; Script.long_page]) [])
                  (Script.world
                     (inr [Script.blank_page; Script.blank_page;
                           Script.blank_page;
                           {| extract_text :=
                                inl (Exn "PDFSyntaxError" (py "bad page")) |}])
                     [])
                  [] [] Script.initial _ _ eq_refl eq_refl eq_refl).
    reflexivity.
Defined.

(** The threshold is applied after stripping: a document whose first three
    pages hold at most 100 characters in all, or white space only, is
    scanned. *)
Theorem is_scanned_pdf_short_or_blank
        (w : World) (pdf_file : list Byte.byte) (s : state)
        (pages : list Page) :
  pdfplumber_open w pdf_file = inr pages ->
  Forall readable (firstn 3 pages) ->
  (len (List.concat (map page_text (firstn 3 pages))) <= 100)%Z
  \/ forallb isspace (List.concat (map page_text (firstn 3 pages))) = true ->
  is_scanned_pdf w pdf_file s = (inr true, s).
Proof.
  intros Hopen Hread Hshort. rewrite is_scanned_pdf_run.
  unfold scanned, scan_events. rewrite (scan_check_sample _ _ _ Hopen).
  destruct pages as [|p ps]; [now rewrite log_append_nil|].
  rewrite (sampled_text_readable _ [] Hread), app_nil_l.
  set (text := List.concat (map page_text (firstn 3 (p :: ps)))) in *.
  assert (Hlen : (len (strip text) <= 100)%Z).
  { destruct Hshort as [H|H].
    - pose proof (strip_length text). lia.
    - rewrite (strip_spaces _ H). unfold len. simpl. lia. }
  destruct (Z.ltb_spec 100 (len (strip text))); [lia|].
  now rewrite log_append_nil.
Qed.

(** A page of 150 spaces. *)
Lemma is_scanned_pdf_short_or_blank_example :
  is_scanned_pdf
    (Script.world (inr [Script.text_page (repeat 32%N 150)]) [])
    [] Script.initial
  = (inr true, Script.initial).
Proof.
  apply (is_scanned_pdf_short_or_blank
           (Script.world (inr [Script.text_page (repeat 32%N 150)]) [])
           [] Script.initial [Script.text_page (repeat 32%N 150)] eq_refl
           (readable_pages [Script.text_page (repeat 32%N 150)] eq_refl)).
  right. vm_compute. reflexivity.
Defined.

(** ** The pipeline, continued *)

Lemma classification_events_requests (w : World) (n : nat) (text : pystr) :
  filter is_invoke (classification_events w n text)
  = [InvokeModel (classification_message w text)].
Proof.
  unfold classification_events. cbn [filter is_invoke].
  now rewrite filter_app, call_events_requests.
Qed.

Lemma get_document_analysis_requests
      (w : World) (doc_class : pyval) (pdf_text : pystr) (s : state) :
  exists sent,
    requests (snd (get_document_analysis w doc_class pdf_text s))
    = requests s ++ sent
    /\ (sent = [] \/ exists content, sent = [InvokeModel content]).
Proof.
  rewrite get_document_analysis_run.
  destruct (dict_find (prompt_mapping w) doc_class) as [e|[build|]].
  - exists []. cbn [snd]. rewrite requests_log_append. tauto.
  - destruct (subscript w (system_prompt_mapping w) doc_class) as [e|sys].
    + exists []. cbn [snd]. rewrite requests_log_append. tauto.
    + eexists. cbv zeta. cbn [snd]. rewrite requests_log_append.
      cbn [filter is_invoke]. rewrite filter_app, call_events_requests.
      split; [reflexivity|]. right. eexists. reflexivity.
  - exists []. cbn [snd]. rewrite requests_log_append. tauto.
Qed.

Lemma process_document_outcome
      (w : World) (uploaded_file : list Byte.byte) (s : state) :
  exists r s',
    process_document w uploaded_file s = (inr r, s')
    /\ processing s' = false
    /\ (r = PyNone
        \/ exists document_type analysis,
             r = PyDict
                   [(py "result",
                     PyDict
                       [(py "document_type", document_type);
                        (py "analysis", analysis);
                        (py "mongo_obj_id",
                         PyStr (py "doc_" ++ now_stamp w))])])
    /\ exists es, log s' = log s ++ es.
Proof.
  destruct (scanned w uploaded_file) eqn:Hs.
  { rewrite (process_document_scanned_run _ _ _ Hs). eexists _, _.
    split; [reflexivity|]. cbn [processing log]. repeat split; eauto. }
  pose proof (not_scanned_checked _ _ Hs) as Hscan.
  destruct (scan_check_opened _ _ _ Hscan) as (pages & Hopen).
  destruct (page_texts pages) as [e|texts] eqn:Htexts.
  { rewrite (process_document_unreadable_page _ _ s _ _ Hscan Hopen Htexts).
    unfold aborted. eexists _, _. split; [reflexivity|].
    cbn [processing log]. repeat split; eauto. }
  rewrite (process_document_run _ _ s _ _ Hscan Hopen Htexts). cbv zeta.
  set (text := join [newline] texts).
  set (s1 := log_append (previewed s text) _).
  assert (Hs1 : exists es, log s1 = log s ++ es).
  { subst s1. unfold previewed, log_append. cbn [log].
    rewrite <- app_assoc. eauto. }
  destruct Hs1 as (es1 & Hs1).
  destruct (get (call_result w _ _) "class") as [e|doc_class].
  { unfold aborted. eexists _, _. split; [reflexivity|].
    cbn [processing log]. rewrite Hs1, <- app_assoc. repeat split; eauto. }
  destruct (get_document_analysis_grows w doc_class text s1) as (r & es & ->).
  assert (Hs2 : log (log_append s1 es) = log s ++ es1 ++ es).
  { unfold log_append. cbn [log]. now rewrite Hs1, <- app_assoc. }
  destruct r as [e|an].
  { unfold aborted. eexists _, _. split; [reflexivity|].
    cbn [processing]. cbn [log]. fold (log (log_append s1 es)).
    rewrite Hs2, <- !app_assoc. repeat split; eauto. }
  destruct (get (call_result w _ _) "category") as [e|label].
  { unfold aborted. eexists _, _. split; [reflexivity|].
    cbn [processing]. cbn [log]. fold (log (log_append s1 es)).
    rewrite Hs2, <- !app_assoc. repeat split; eauto. }
  eexists _, _. split; [reflexivity|].
  cbn [processing]. repeat split.
  - right. exists label, an. reflexivity.
  - cbn [log]. fold (log (log_append s1 es)). rewrite Hs2. eauto.
Qed.

(** [process_document] never raises.  It returns [None] or a record with a
    document type, an analysis and an identifier; it leaves the processing
    flag cleared; and it only adds to what is on the screen. *)
Theorem process_document_never_raises
        (w : World) (uploaded_file : list Byte.byte) (s : state) :
  exists r s',
    process_document w uploaded_file s = (inr r, s')
    /\ processing s' = false
    /\ (r = PyNone
        \/ exists document_type analysis,
             r = PyDict
                   [(py "result",
                     PyDict
                       [(py "document_type", document_type);
                        (py "analysis", analysis);
                        (py "mongo_obj_id",
                         PyStr (py "doc_" ++ now_stamp w))])])
    /\ exists es, log s' = log s ++ es.
Proof.
  exact (process_document_outcome w uploaded_file s).
Qed.

(** A run of [process_document] sends at most two requests: none, or the
    classification request alone, or the classification request followed by
    one more. *)
Theorem process_document_sends_at_most_two
        (w : World) (uploaded_file : list Byte.byte) (s : state) :
  exists sent,
    requests (snd (process_document w uploaded_file s)) = requests s ++ sent
    /\ (sent = []
        \/ (exists text, sent = [InvokeModel (classification_message w text)])
        \/ (exists text content,
               sent = [InvokeModel (classification_message w text);
                       InvokeModel content])).
Proof.
  destruct (scanned w uploaded_file) eqn:Hs.
  { rewrite (process_document_scanned_run _ _ _ Hs). exists [].
    split; [|tauto]. unfold requests. cbn [snd log].
    now rewrite filter_app, scan_events_send_nothing, app_nil_r. }
  pose proof (not_scanned_checked _ _ Hs) as Hscan.
  destruct (scan_check_opened _ _ _ Hscan) as (pages & Hopen).
  destruct (page_texts pages) as [e|texts] eqn:Htexts.
  { rewrite (process_document_unreadable_page _ _ s _ _ Hscan Hopen Htexts).
    exists []. split; [|tauto]. rewrite requests_aborted. now rewrite app_nil_r. }
  rewrite (process_document_run _ _ s _ _ Hscan Hopen Htexts). cbv zeta.
  set (text := join [newline] texts).
  set (s1 := log_append (previewed s text) _).
  assert (Hs1 : requests s1
                = requests s ++ [InvokeModel (classification_message w text)]).
  { subst s1. now rewrite requests_log_append, requests_previewed,
                classification_events_requests. }
  destruct (get (call_result w _ _) "class") as [e|doc_class].
  { eexists. rewrite requests_aborted, Hs1. split; [reflexivity|]. eauto. }
  destruct (get_document_analysis_requests w doc_class text s1)
    as (sent & Hsent & Hcases).
  destruct (get_document_analysis w doc_class text s1) as [[e|an] s2].
  { cbn [snd] in Hsent. eexists. rewrite requests_aborted, Hsent, Hs1.
    rewrite <- app_assoc. split; [reflexivity|].
    destruct Hcases as [-> | (content & ->)]; cbn [app]; eauto. }
  cbn [snd] in Hsent.
  destruct (get (call_result w _ _) "category") as [e|label].
  - eexists. rewrite requests_aborted, Hsent, Hs1, <- app_assoc.
    split; [reflexivity|].
    destruct Hcases as [-> | (content & ->)]; cbn [app]; eauto.
  - eexists. cbn [snd]. rewrite requests_set_processing, Hsent, Hs1.
    rewrite <- app_assoc. split; [reflexivity|].
    destruct Hcases as [-> | (content & ->)]; cbn [app]; eauto.
Qed.

(** When a document is not scanned and one of its pages cannot be read
    during the full extraction, the exception of the first such page ends
    the run: [process_document] shows "Error processing document: ...",
    returns [None] and sends nothing to the service. *)
Theorem process_document_unreadable_later_page
        (w : World) (uploaded_file : list Byte.byte) (s : state)
        (good rest : list Page) (bad : Page) (e : exn) :
  fst (is_scanned_pdf w uploaded_file s) = inr false ->
  pdfplumber_open w uploaded_file = inr (good ++ bad :: rest) ->
  Forall readable good ->
  extract_text bad = inl e ->
  process_document w uploaded_file s
  = (inr PyNone,
     {| processing := false;
        log := log s ++ [StError (py "Error processing document: "
                                  ++ exn_msg e)] |})
  /\ requests (snd (process_document w uploaded_file s)) = requests s.
Proof.
  intros Hs Hopen Hgood Hbad. apply is_scanned_pdf_verdict in Hs.
  rewrite (process_document_unreadable_page _ _ s _ _
             (not_scanned_checked _ _ Hs) Hopen
             (page_texts_first_failure _ _ _ _ Hgood Hbad)).
  split; [reflexivity|]. now rewrite requests_aborted.
Qed.

(** Three readable pages and a fourth that cannot be read. *)
Lemma process_document_unreadable_later_page_example :
  fst (process_document
         (Script.world
            (inr [Script.long_page; Script.blank_page; Script.blank_page;
                  {| extract_text := inl (Exn "PDFSyntaxError" (py "bad page")) |}])
            [])
         [] Script.initial)
  = inr PyNone.
Proof.
  rewrite (proj1 (process_document_unreadable_later_page
                    (Script.world
                       (inr [Script.long_page; Script.blank_page;
                             Script.blank_page;
                             {| extract_text :=
                                  inl (Exn "PDFSyntaxError" (py "bad page")) |}])
                       [])
                    [] Script.initial
                    [Script.long_page; Script.blank_page; Script.blank_page]
                    []
                    {| extract_text :=
                         inl (Exn "PDFSyntaxError" (py "bad page")) |}
                    (Exn "PDFSyntaxError" (py "bad page"))
                    eq_refl eq_refl
                    (readable_pages
                       [Script.long_page; Script.blank_page; Script.blank_page]
                       eq_refl)
                    eq_refl)).
  reflexivity.
Defined.

(** When the classification call returns an object whose class is a list
    or a dict, the membership test of [get_document_analysis] raises
    [TypeError]; [process_document] catches it, shows
    "Error processing document: unhashable type: ...", returns [None], and
    the classification request stays the only request of the run. *)
Theorem process_document_unhashable_class
        (w : World) (uploaded_file : list Byte.byte) (s : state)
        (pages : list Page) (obj doc_class : pyval) :
  fst (is_scanned_pdf w uploaded_file s) = inr false ->
  pdfplumber_open w uploaded_file = inr pages ->
  Forall readable pages ->
  let text := join [newline] (map page_text pages) in
  answer w (List.length (requests s)) (classification_message w text)
  = inr obj ->
  get obj "class" = inr doc_class ->
  hashable doc_class = false ->
  fst (process_document w uploaded_file s) = inr PyNone
  /\ In (StError (py "Error processing document: "
                  ++ py ("unhashable type: '" ++ type_name doc_class
                         ++ "'")%string))
        (log (snd (process_document w uploaded_file s)))
  /\ requests (snd (process_document w uploaded_file s))
     = requests s ++ [InvokeModel (classification_message w text)]
  /\ processing (snd (process_document w uploaded_file s)) = false.
Proof.
  intros Hs Hopen Hread text Ha Hc Hh. apply is_scanned_pdf_verdict in Hs.
  rewrite (process_document_run _ _ s _ _ (not_scanned_checked _ _ Hs)
                                Hopen (page_texts_readable _ Hread)).
  fold text. cbv zeta. unfold call_result. rewrite Ha, Hc.
  rewrite get_document_analysis_run. unfold dict_find. rewrite Hh.
  repeat split.
  - unfold aborted. cbn [snd log]. apply in_or_app. right. now left.
  - rewrite requests_aborted, !requests_log_append, requests_previewed.
    rewrite classification_events_requests. cbn [filter is_invoke].
    now rewrite app_nil_r.
Qed.

Lemma process_document_unhashable_class_example :
  fst (process_document
         (Script.world
            (inr [Script.long_page])
            [inr (Script.body_with (pyq "{\'class\': [0]}"))])
         [] Script.initial)
  = inr PyNone
  /\ In (StError (py "Error processing document: unhashable type: 'list'"))
        (log (snd (process_document
                     (Script.world
                        (inr [Script.long_page])
                        [inr (Script.body_with (pyq "{\'class\': [0]}"))])
                     [] Script.initial))).
Proof.
  destruct (process_document_unhashable_class
              (Script.world
                 (inr [Script.long_page])
                 [inr (Script.body_with (pyq "{\'class\': [0]}"))])
              [] Script.initial [Script.long_page]
              (PyDict [(py "class", PyList [PyInt 0])]) (PyList [PyInt 0])
              eq_refl eq_refl (readable_pages [Script.long_page] eq_refl)
              eq_refl eq_refl eq_refl)
    as (Hr & Hin & _).
  split; [exact Hr | exact Hin].
Defined.

(** The two stages together.  When the classification call returns an
    object whose class is a key of the prompt table, the run sends two
    requests, the classification request and then the request made of the
    prompts stored under that class, and returns a record: its document
    type is the "category" entry of the object, and its analysis is the
    payload of the second answer or, when the second call fails, the error
    dict of that failure. *)
Theorem process_document_two_stages
        (w : World) (uploaded_file : list Byte.byte) (s : state)
        (pages : list Page) (obj doc_class document_type : pyval)
        (build : pystr -> pystr -> pystr) :
  fst (is_scanned_pdf w uploaded_file s) = inr false ->
  pdfplumber_open w uploaded_file = inr pages ->
  Forall readable pages ->
  let text := join [newline] (map page_text pages) in
  let n := List.length (requests s) in
  answer w n (classification_message w text) = inr obj ->
  get obj "class" = inr doc_class ->
  get obj "category" = inr document_type ->
  dict_find (prompt_mapping w) doc_class = inr (Some build) ->
  exists system_prompt,
    dict_find (system_prompt_mapping w) doc_class = inr (Some system_prompt)
    /\ fst (process_document w uploaded_file s)
       = inr (PyDict
                [(py "result",
                  PyDict
                    [(py "document_type", document_type);
                     (py "analysis",
                      match answer w (S n)
                              (message system_prompt (build text (today w)))
                      with
                      | inr payload => payload
                      | inl e => PyDict [(py "error", PyStr (exn_msg e))]
                      end);
                     (py "mongo_obj_id", PyStr (py "doc_" ++ now_stamp w))])])
    /\ requests (snd (process_document w uploaded_file s))
       = requests s
         ++ [InvokeModel (classification_message w text);
             InvokeModel (message system_prompt (build text (today w)))].
Proof.
  intros Hs Hopen Hread text n Ha Hc Hl Hf. apply is_scanned_pdf_verdict in Hs.
  destruct (dict_find_both_tables _ _ _ Hf) as (_ & sys & Hsys).
  exists sys. split.
  { unfold subscript in Hsys.
    destruct (dict_find (system_prompt_mapping w) doc_class) as [e|[x|]];
      congruence. }
  set (amsg := message sys (build text (today w))).
  set (s1 := log_append (previewed s text) (classification_events w n text)).
  assert (Hn : List.length (requests s1) = S n).
  { subst s1. rewrite requests_log_append, requests_previewed.
    rewrite classification_events_requests, length_app. simpl. subst n. lia. }
  assert (Hrun : process_document w uploaded_file s
                 = (inr (final_record w document_type (call_result w (S n) amsg)),
                    {| processing := false;
                       log := log (log_append s1
                                     (analysis_status
                                      :: call_events w (S n) amsg
                                      ++ [StatusUpdate
                                            (py "Document analysis complete!")])) |})).
  { rewrite (process_document_run _ _ s _ _ (not_scanned_checked _ _ Hs)
                                  Hopen (page_texts_readable _ Hread)).
    fold text. fold n. cbv zeta. fold s1.
    assert (Hcls : call_result w n (classification_message w text) = obj)
      by (unfold call_result; now rewrite Ha).
    rewrite Hcls, Hc, Hl.
    rewrite get_document_analysis_run, Hf, Hsys. cbv zeta.
    rewrite Hn. reflexivity. }
  rewrite Hrun. split; [reflexivity|].
  cbn [snd]. rewrite requests_set_processing, requests_log_append.
  rewrite (app_comm_cons _ _ analysis_status), filter_app.
  cbn [filter is_invoke]. rewrite call_events_requests.
  subst s1. rewrite requests_log_append, requests_previewed.
  rewrite classification_events_requests.
  now rewrite app_nil_r, <- app_assoc.
Qed.

(** The classification answer [{"class": 1, "category": "Utility bill"}]
    followed by an analysis answer without braces. *)
Lemma process_document_two_stages_example :
  fst (process_document
         (Script.world
            (inr [Script.long_page])
            [inr (Script.body_with
                    (pyq "{\'class\': 1, \'category\': \'Utility bill\'}"));
             inr (Script.body_with (py "Sorry, I cannot help."))])
         [] Script.initial)
  = inr (PyDict
           [(py "result",
             PyDict
               [(py "document_type", PyStr (py "Utility bill"));
                (py "analysis",
                 PyDict
                   [(py "error",
                     PyStr (py "Expecting value: line 1 column 1 (char 0)"))]);
                (py "mongo_obj_id", PyStr (py "doc_20250131120000"))])]).
Proof.
  destruct (process_document_two_stages
              (Script.world
                 (inr [Script.long_page])
                 [inr (Script.body_with
                         (pyq "{\'class\': 1, \'category\': \'Utility bill\'}"));
                  inr (Script.body_with (py "Sorry, I cannot help."))])
              [] Script.initial [Script.long_page]
              (PyDict [(py "class", PyInt 1);
                       (py "category", PyStr (py "Utility bill"))])
              (PyInt 1) (PyStr (py "Utility bill"))
              (Script.tagged "address ")
              eq_refl eq_refl (readable_pages [Script.long_page] eq_refl)
              eq_refl eq_refl eq_refl eq_refl)
    as (sys & Hsys & Hr & _).
  rewrite Hr. injection Hsys as <-. vm_compute. reflexivity.
Defined.

(** ** The display of results *)

(** [display_results] writes nothing and returns at once when it is given
    [None], any other false value, or a dict without the key "result". *)
Theorem display_results_nothing_to_show
        (w : World) (sc : Screen) (results : pyval) :
  truthy results = false
  \/ (exists d, results = PyDict d /\ dict_lookup d (py "result") = None) ->
  display_results w sc results = (inr tt, []).
Proof.
  intros [H | (d & -> & H)]; unfold display_results.
  - now rewrite H.
  - destruct (truthy (PyDict d)); [|reflexivity].
    unfold contains. now rewrite H.
Qed.

Lemma display_results_nothing_to_show_example :
  display_results (Script.world (inr []) [])
                  {| title_other := fun s => s;
                     json_dumps_indent := fun _ => [];
                     download_stamp := py "20250131_120000" |}
                  PyNone
  = (inr tt, []).
Proof.
  apply display_results_nothing_to_show. now left.
Defined.

(** A record whose analysis is an error dict, as a failed analysis call or
    an unknown class leaves it, is displayed like any other analysis: the
    summary tab stays empty, and the detailed tab gets a section headed
    "Error" with the message as plain text, followed by the download
    button. *)
Theorem display_results_error_record
        (w : World) (sc : Screen) (document_type mongo_obj_id : pyval)
        (msg : pystr) :
  display_results w sc
    (PyDict
       [(py "result",
         PyDict [(py "document_type", document_type);
                 (py "analysis", PyDict [(py "error", PyStr msg)]);
                 (py "mongo_obj_id", mongo_obj_id)])])
  = (inr tt,
     [Markdown InPage (PyStr results_header) true;
      Markdown InPage
        (PyStr (py "**Document Type:** " ++ str_of w document_type)) false;
      Tabs [py "Summary"; py "Detailed Analysis"];
      Markdown InTab2 (PyStr (py "### Error")) false;
      Text InTab2 (PyStr msg);
      DownloadButton
        (py "Download Analysis (JSON)")
        (json_dumps_indent sc
           (PyDict [(py "document_type", document_type);
                    (py "analysis", PyDict [(py "error", PyStr msg)]);
                    (py "mongo_obj_id", mongo_obj_id)]))
        (py "document_analysis_" ++ download_stamp sc ++ py ".json")
        (py "application/json")]).
Proof. reflexivity. Qed.

Lemma and_then_fst {A B} (m : D A) (k : A -> D B) (a : A) :
  fst m = inr a -> fst (and_then m k) = fst (k a).
Proof.
  destruct m as [[e|a'] ws]; simpl; intros H; [discriminate|].
  injection H as ->. now destruct (k a).
Qed.

Lemma and_then_raises {A B} (m : D A) (k : A -> D B) (e : exn) :
  fst m = inl e -> fst (and_then m k) = inl e.
Proof.
  destruct m as [[e'|a] ws]; simpl; intros H; [congruence|discriminate].
Qed.

Lemma for_each_returns {A} (l : list A) (body : A -> D unit) :
  (forall x, fst (body x) = inr tt) -> fst (for_each l body) = inr tt.
Proof.
  intros H. induction l as [|x r IH]; simpl; [reflexivity|].
  now rewrite (and_then_fst _ _ tt (H x)).
Qed.

Lemma show_entries_returns (w : World) (at_ : place) (d : list (pystr * pyval)) :
  fst (show_entries w at_ d) = inr tt.
Proof. apply for_each_returns. reflexivity. Qed.

Lemma show_list_returns (w : World) (at_ : place) (l : list pyval) :
  fst (show_list w at_ l) = inr tt.
Proof.
  apply for_each_returns. intros [ | | | | | |d]; try reflexivity.
  apply show_entries_returns.
Qed.

Lemma other_section_returns (w : World) (sc : Screen) (entry : pystr * pyval) :
  fst (other_section w sc entry) = inr tt.
Proof.
  destruct entry as [key value]. unfold other_section.
  destruct (existsb (pystr_eqb key) shown_elsewhere); [reflexivity|].
  erewrite and_then_fst by reflexivity.
  destruct value; try reflexivity.
  - apply show_list_returns.
  - apply for_each_returns. reflexivity.
Qed.

Lemma fields_section_returns (w : World) (d : list (pystr * pyval)) :
  fst (fields_section w (PyDict d)) = inr tt.
Proof.
  unfold fields_section, contains, getitem.
  destruct (dict_lookup d (py "extracted_fields")) as [fields|];
    [|reflexivity].
  cbn. destruct fields; try reflexivity.
  destruct (show_list w InTab2 l) as [r ws] eqn:Hl.
  pose proof (show_list_returns w InTab2 l) as H. rewrite Hl in H.
  simpl in H. now subst r.
Qed.

(** Whether the first tab can be written depends on the "validity" entry
    alone. *)
Lemma summary_tab_result (w : World) (d : list (pystr * pyval)) :
  fst (summary_tab w (PyDict d))
  = match dict_lookup d (py "validity") with
    | None | Some (PyDict _) => inr tt
    | Some v => inl (no_attribute v "get")
    end.
Proof.
  unfold summary_tab, contains, getitem.
  destruct (dict_lookup d (py "summary")) as [sm|];
    [|destruct (dict_lookup d (py "key_points")) as [kp|]];
    (destruct (dict_lookup d (py "validity")) as [v|]; [|reflexivity]);
    (destruct v as [ | | | | | |vd]; try reflexivity);
    cbn;
    repeat match goal with
           | |- context [dict_lookup vd ?k] => destruct (dict_lookup vd k); cbn
           end;
    reflexivity.
Qed.

Lemma and_then_result {A B} (m : D A) (k : A -> D B) :
  fst (and_then m k)
  = match fst m with
    | inl e => inl e
    | inr a => fst (k a)
    end.
Proof.
  destruct m as [[e|a] ws]; simpl; [reflexivity|]. now destruct (k a).
Qed.

(** What [display_results] does with the record of a run whose analysis is
    a dict: it writes the page and returns, unless the analysis has a
    "validity" entry that is not a dict ([null] included), on which
    [.get] raises [AttributeError]. *)
Theorem display_results_raises_only_on_validity
        (w : World) (sc : Screen) (document_type mongo_obj_id : pyval)
        (d : list (pystr * pyval)) :
  fst (display_results w sc
         (PyDict
            [(py "result",
              PyDict [(py "document_type", document_type);
                      (py "analysis", PyDict d);
                      (py "mongo_obj_id", mongo_obj_id)])]))
  = match dict_lookup d (py "validity") with
    | None | Some (PyDict _) => inr tt
    | Some v =>
        inl (Exn "AttributeError"
                 (py ("'" ++ type_name v
                      ++ "' object has no attribute 'get'")%string))
    end.
Proof.
  set (inner := PyDict [(py "document_type", document_type);
                        (py "analysis", PyDict d);
                        (py "mongo_obj_id", mongo_obj_id)]).
  unfold display_results.
  rewrite and_then_result.
  match goal with
  | |- match fst ?m with inl _ => _ | inr _ => _ end = _ =>
      change (fst m) with (@inr exn bool true)
  end.
  cbv beta iota. change (negb true) with false. cbv iota.
  rewrite and_then_result.
  change (fst (eval (getitem w (PyDict [(py "result", inner)]) "result")))
    with (@inr exn pyval inner).
  cbv beta iota.
  rewrite and_then_result. cbn [fst show].
  rewrite and_then_result.
  change (fst (eval (getitem w inner "document_type")))
    with (@inr exn pyval document_type).
  cbv beta iota.
  rewrite and_then_result. cbn [fst show markdown_text].
  rewrite and_then_result.
  change (fst (eval (getitem w inner "analysis")))
    with (@inr exn pyval (PyDict d)).
  cbv beta iota.
  rewrite and_then_result. cbn [fst show].
  rewrite and_then_result, summary_tab_result.
  destruct (dict_lookup d (py "validity")) as [v|].
  - destruct v; try reflexivity.
    rewrite and_then_result, fields_section_returns.
    rewrite and_then_result. cbn [fst eval items].
    rewrite and_then_result.
    rewrite (for_each_returns _ _ (other_section_returns w sc)).
    reflexivity.
  - rewrite and_then_result, fields_section_returns.
    rewrite and_then_result. cbn [fst eval items].
    rewrite and_then_result.
    rewrite (for_each_returns _ _ (other_section_returns w sc)).
    reflexivity.
Qed.

(** An analysis whose "validity" is the string "valid". *)
Lemma display_results_validity_text_example :
  fst (display_results
         (Script.world (inr []) [])
         {| title_other := fun s => s;
            json_dumps_indent := fun _ => [];
            download_stamp := py "20250131_120000" |}
         (PyDict
            [(py "result",
              PyDict [(py "document_type", PyStr (py "Passport"));
                      (py "analysis",
                       PyDict [(py "validity", PyStr (py "valid"))]);
                      (py "mongo_obj_id", PyStr (py "doc_1"))])]))
  = inl (Exn "AttributeError" (py "'str' object has no attribute 'get'")).
Proof. vm_compute. reflexivity. Qed.

Lemma and_then_written {A B} (m : D A) (k : A -> D B) :
  snd (and_then m k)
  = snd m ++ match fst m with
             | inl _ => []
             | inr a => snd (k a)
             end.
Proof.
  destruct m as [[e|a] ws]; simpl; [now rewrite app_nil_r|].
  now destruct (k a).
Qed.

Lemma and_then_pure {A B} (m : D A) (k : A -> D B) (a : A) :
  m = (inr a, []) -> and_then m k = k a.
Proof. intros ->. simpl. now destruct (k a). Qed.

Lemma and_then_show {B} (wd : widget) (k : unit -> D B) :
  and_then (show wd) k = (fst (k tt), wd :: snd (k tt)).
Proof. simpl. now destruct (k tt). Qed.

(** [display_results] on the record of a run: the header, the document
    type and the tabs, and then the rest. *)
Lemma display_results_record
      (w : World) (sc : Screen) (document_type analysis mongo_obj_id : pyval) :
  display_results w sc (run_record document_type analysis mongo_obj_id)
  = (fst (tabs_and_download w sc
            (PyDict [(py "document_type", document_type);
                     (py "analysis", analysis);
                     (py "mongo_obj_id", mongo_obj_id)]) analysis),
     [Markdown InPage (PyStr results_header) true;
      Markdown InPage
        (PyStr (py "**Document Type:** " ++ str_of w document_type)) false;
      Tabs [py "Summary"; py "Detailed Analysis"]]
     ++ snd (tabs_and_download w sc
               (PyDict [(py "document_type", document_type);
                        (py "analysis", analysis);
                        (py "mongo_obj_id", mongo_obj_id)]) analysis)).
Proof.
  unfold display_results.
  erewrite (and_then_pure _ _ true) by reflexivity.
  change (negb true) with false. cbv iota.
  erewrite and_then_pure by reflexivity.
  rewrite and_then_show.
  erewrite and_then_pure by reflexivity.
  unfold markdown_text at 1. rewrite and_then_show.
  erewrite and_then_pure by reflexivity.
  rewrite and_then_show.
  reflexivity.
Qed.

Lemma pystr_eqb_true (a b : pystr) : pystr_eqb a b = true -> a = b.
Proof.
  revert b. induction a as [|x a IH]; intros [|y b]; simpl; try discriminate.
  - reflexivity.
  - intros H. apply andb_prop in H. destruct H as [Hx Hab].
    apply N.eqb_eq in Hx. subst. f_equal. now apply IH.
Qed.

Lemma dict_lookup_without_key (removed k : pystr) (d : list (pystr * pyval)) :
  pystr_eqb removed k = false ->
  dict_lookup (without_key removed d) k = dict_lookup d k.
Proof.
  intros Hk. induction d as [|[ke v] r IH]; simpl; [reflexivity|].
  destruct (pystr_eqb ke removed) eqn:He; simpl.
  - apply pystr_eqb_true in He. subst ke. now rewrite Hk.
  - now rewrite IH.
Qed.

Lemma and_then_ext {A B} (m : D A) (k k' : A -> D B) :
  (forall a, k a = k' a) -> and_then m k = and_then m k'.
Proof.
  intros H. destruct m as [[e|a] ws]; simpl; [reflexivity|]. now rewrite H.
Qed.

Lemma and_then_cong {A B} (m m' : D A) (k k' : A -> D B) :
  m = m' -> (forall a, k a = k' a) -> and_then m k = and_then m' k'.
Proof.
  intros -> H. now apply and_then_ext.
Qed.

Lemma for_each_without_key_points
      (w : World) (sc : Screen) (d : list (pystr * pyval)) :
  for_each (without_key (py "key_points") d) (other_section w sc)
  = for_each d (other_section w sc).
Proof.
  induction d as [|[ke v] r IH]; [reflexivity|].
  unfold without_key. cbn [filter fst].
  fold (without_key (py "key_points") r).
  destruct (pystr_eqb ke (py "key_points")) eqn:He; cbn [negb for_each].
  - apply pystr_eqb_true in He. subst ke.
    rewrite IH.
    now rewrite (and_then_pure (other_section w sc (py "key_points", v))
                               _ tt eq_refl).
  - now rewrite IH.
Qed.

Lemma summary_tab_without_key_points
      (w : World) (d : list (pystr * pyval)) (sm : pyval) :
  dict_lookup d (py "summary") = Some sm ->
  summary_tab w (PyDict (without_key (py "key_points") d))
  = summary_tab w (PyDict d).
Proof.
  intros Hsm. unfold summary_tab.
  assert (Hc : forall k : string,
             pystr_eqb (py "key_points") (py k) = false ->
             contains (PyDict (without_key (py "key_points") d)) k
             = contains (PyDict d) k).
  { intros k Hk. unfold contains. now rewrite dict_lookup_without_key. }
  assert (Hg : forall k : string,
             pystr_eqb (py "key_points") (py k) = false ->
             getitem w (PyDict (without_key (py "key_points") d)) k
             = getitem w (PyDict d) k).
  { intros k Hk. unfold getitem. now rewrite dict_lookup_without_key. }
  rewrite (Hc "summary"%string eq_refl).
  assert (Hhas : contains (PyDict d) "summary" = inr true)
    by (unfold contains; now rewrite Hsm).
  rewrite Hhas.
  erewrite !(and_then_pure (eval (inr true))) by reflexivity.
  cbv iota.
  apply and_then_cong.
  - apply and_then_ext. intros u.
    now rewrite (Hg "summary"%string eq_refl).
  - intros u. rewrite (Hc "validity"%string eq_refl).
    apply and_then_ext. intros [|]; [|reflexivity].
    apply and_then_ext. intros u'.
    now rewrite (Hg "validity"%string eq_refl).
Qed.

Lemma fields_section_without_key_points
      (w : World) (d : list (pystr * pyval)) :
  fields_section w (PyDict (without_key (py "key_points") d))
  = fields_section w (PyDict d).
Proof.
  unfold fields_section, contains, getitem.
  rewrite !dict_lookup_without_key by reflexivity.
  reflexivity.
Qed.

(** When an analysis has a "summary", its "key_points" are shown nowhere:
    the page is written as if the analysis had no "key_points" entry.
    Only the data behind the download button still holds them. *)
Theorem display_results_hides_key_points
        (w : World) (sc : Screen) (document_type mongo_obj_id summary : pyval)
        (d : list (pystr * pyval)) :
  dict_lookup d (py "summary") = Some summary ->
  fst (display_results w sc
         (run_record document_type (PyDict d) mongo_obj_id))
  = fst (display_results w sc
           (run_record document_type
                       (PyDict (without_key (py "key_points") d))
                       mongo_obj_id))
  /\ without_download
       (snd (display_results w sc
               (run_record document_type (PyDict d) mongo_obj_id)))
     = without_download
         (snd (display_results w sc
                 (run_record document_type
                             (PyDict (without_key (py "key_points") d))
                             mongo_obj_id))).
Proof.
  intros Hsm. rewrite !display_results_record. cbn [fst snd].
  unfold tabs_and_download.
  rewrite (summary_tab_without_key_points w d summary Hsm).
  rewrite fields_section_without_key_points.
  cbn [items].
  erewrite !(and_then_pure (eval (inr _))) by reflexivity.
  rewrite for_each_without_key_points.
  destruct (summary_tab w (PyDict d)) as [[e|[]] ws1];
    [split; reflexivity|].
  destruct (fields_section w (PyDict d)) as [[e|[]] ws2];
    [split; reflexivity|].
  destruct (for_each d (other_section w sc)) as [[e|[]] ws3];
    [split; reflexivity|].
  split; [reflexivity|].
  unfold without_download. cbn [and_then show snd fst].
  rewrite !filter_app. cbn [filter is_download negb app].
  reflexivity.
Qed.

(** An analysis with a summary and key points. *)
Lemma display_results_hides_key_points_example :
  without_download
    (snd (display_results
            (Script.world (inr []) [])
            {| title_other := fun s => s;
               json_dumps_indent := fun _ => [];
               download_stamp := py "20250131_120000" |}
            (run_record (PyStr (py "Passport"))
                        (PyDict [(py "summary", PyStr (py "A passport."));
                                 (py "key_points", PyStr (py "Valid."))])
                        (PyStr (py "doc_1")))))
  = [Markdown InPage (PyStr results_header) true;
     Markdown InPage (PyStr (py "**Document Type:** Passport")) false;
     Tabs [py "Summary"; py "Detailed Analysis"];
     Markdown InTab1 (PyStr (py "### Key Points")) false;
     Markdown InTab1 (PyStr (py "A passport.")) false].
Proof.
  rewrite (proj2 (display_results_hides_key_points
                    (Script.world (inr []) [])
                    {| title_other := fun s => s;
                       json_dumps_indent := fun _ => [];
                       download_stamp := py "20250131_120000" |}
                    (PyStr (py "Passport")) (PyStr (py "doc_1"))
                    (PyStr (py "A passport."))
                    [(py "summary", PyStr (py "A passport."));
                     (py "key_points", PyStr (py "Valid."))]
                    eq_refl)).
  vm_compute. reflexivity.
Defined.


(** ** The page *)

Section Written.

Variable P : widget -> bool.

Lemma and_then_all {A B} (m : D A) (k : A -> D B) :
  forallb P (snd m) = true ->
  (forall a, forallb P (snd (k a)) = true) ->
  forallb P (snd (and_then m k)) = true.
Proof.
  intros Hm Hk. destruct m as [[e|a] ws]; cbn [and_then snd] in *;
    [exact Hm|].
  specialize (Hk a). destruct (k a) as [r ws']. cbn [snd] in *.
  rewrite forallb_app, Hm, Hk. reflexivity.
Qed.

Lemma for_each_all {A} (l : list A) (body : A -> D unit) :
  (forall x, forallb P (snd (body x)) = true) ->
  forallb P (snd (for_each l body)) = true.
Proof.
  intros Hb. induction l as [|x r IH]; [reflexivity|].
  cbn [for_each]. apply and_then_all; [apply Hb|]. intros _. exact IH.
Qed.

End Written.

Ltac result_widgets :=
  repeat first
    [ reflexivity
    | apply and_then_all
    | apply for_each_all
    | intro
    | match goal with
      | |- context [if ?b then _ else _] => destruct b
      | |- context [match ?x with _ => _ end] => destruct x
      end ].

Lemma display_results_writes (w : World) (sc : Screen) (results : pyval) :
  forallb is_result_widget (snd (display_results w sc results)) = true.
Proof.
  unfold display_results, summary_tab, fields_section, other_section,
    show_list, show_entries, markdown_text.
  result_widgets.
Qed.

Lemma result_widgets_no_info (ws : list widget) :
  forallb is_result_widget ws = true -> existsb is_info ws = false.
Proof.
  induction ws as [|x r IH]; [reflexivity|]. cbn [forallb existsb].
  intros H. apply andb_prop in H as [Hx Hr]. rewrite (IH Hr).
  now destruct x.
Qed.

Lemma result_widgets_no_run (ws : list widget) :
  forallb is_result_widget ws = true -> existsb is_ran ws = false.
Proof.
  induction ws as [|x r IH]; [reflexivity|]. cbn [forallb existsb].
  intros H. apply andb_prop in H as [Hx Hr]. rewrite (IH Hr).
  now destruct x.
Qed.

Lemma ran_no_info (es : list event) : existsb is_info (map Ran es) = false.
Proof. induction es as [|e r IH]; [reflexivity|]. exact IH. Qed.

(** [process_document] reads the log of the state it starts from, not its
    flag. *)
Lemma process_document_ignores_flag
      (w : World) (uploaded_file : list Byte.byte) (p p' : bool)
      (l : list event) :
  process_document w uploaded_file {| processing := p; log := l |}
  = process_document w uploaded_file {| processing := p'; log := l |}.
Proof.
  destruct (scanned w uploaded_file) eqn:Hs.
  { now rewrite !(process_document_scanned_run _ _ _ Hs). }
  pose proof (not_scanned_checked _ _ Hs) as Hscan.
  destruct (scan_check_opened _ _ _ Hscan) as (pages & Hopen).
  destruct (page_texts pages) as [e|texts] eqn:Htexts.
  { now rewrite !(process_document_unreadable_page _ _ _ _ _ Hscan Hopen Htexts). }
  rewrite !(process_document_run _ _ _ _ _ Hscan Hopen Htexts).
  reflexivity.
Qed.

(** What [main] does on a click: the run and the display of what the run
    returned. *)
Lemma main_click (w : World) (sc : Screen) (session : Session) (f : Upload) :
  exists r s',
    process_document w (upload_bytes f)
      {| processing := session_processing session; log := [] |}
    = (inr r, s')
    /\ (r = PyNone
        \/ exists document_type analysis,
             r = run_record document_type analysis
                            (PyStr (py "doc_" ++ now_stamp w)))
    /\ main w sc session (Some f) true
       = (fst (if truthy r then display_results w sc r else done tt),
          {| session_results := r; session_processing := false |},
          page_top ++ file_widgets f
          ++ Spinner (py "Processing document...") :: map Ran (log s')
          ++ snd (if truthy r then display_results w sc r else done tt)).
Proof.
  destruct (process_document_outcome w (upload_bytes f)
              {| processing := session_processing session; log := [] |})
    as (r & s' & Hrun & Hflag & Hr & _).
  exists r, s'. split; [exact Hrun|]. split; [exact Hr|].
  unfold main, upload_section. rewrite Hrun, Hflag.
  cbn [session_results session_processing].
  unfold file_widgets.
  destruct (truthy r);
    [destruct (display_results w sc r) as [[e|[]] ws]|];
    cbn [fst snd done]; rewrite ?app_nil_r; now rewrite <- ?app_assoc.
Qed.

(** What [main] does without a click. *)
Lemma main_idle (w : World) (sc : Screen) (session : Session)
      (uploaded_file : option Upload) (clicked : bool) :
  uploaded_file = None \/ clicked = false ->
  main w sc session uploaded_file clicked
  = let shown := if truthy (session_results session)
                 then display_results w sc (session_results session)
                 else done tt in
    (fst shown, session,
     page_top
     ++ match uploaded_file with Some f => file_widgets f | None => [] end
     ++ snd shown
     ++ match fst shown with
        | inr _ => if session_processing session
                   then [Info (py "Document analysis in progress...")]
                   else []
        | inl _ => []
        end).
Proof.
  intros H. cbv zeta. unfold main, upload_section.
  destruct uploaded_file as [f|].
  - destruct H as [H | ->]; [discriminate|].
    destruct (truthy (session_results session));
      [destruct (display_results w sc (session_results session))
         as [[e|[]] ws]|];
      cbn [fst snd done]; rewrite ?app_nil_r; reflexivity.
  - destruct (truthy (session_results session));
      [destruct (display_results w sc (session_results session))
         as [[e|[]] ws]|];
      cbn [fst snd done app]; rewrite ?app_nil_r; reflexivity.
Qed.

Lemma shown_results_writes (w : World) (sc : Screen) (results : pyval) :
  forallb is_result_widget
    (snd (if truthy results then display_results w sc results else done tt))
  = true.
Proof.
  destruct (truthy results); [apply display_results_writes|reflexivity].
Qed.

Lemma and_then_failed_all (P : widget -> bool) {A B}
      (m : D A) (k : A -> D B) :
  forallb P (snd m) = true ->
  (forall a e, fst (k a) = inl e -> forallb P (snd (k a)) = true) ->
  forall e, fst (and_then m k) = inl e ->
            forallb P (snd (and_then m k)) = true.
Proof.
  intros Hm Hk e. destruct m as [[e'|a] ws]; cbn [and_then fst snd] in *;
    [intros _; exact Hm|].
  specialize (Hk a). destruct (k a) as [r ws']. cbn [fst snd] in *.
  intros ->. now rewrite forallb_app, Hm, (Hk e eq_refl).
Qed.

Lemma tabs_without_download (w : World) (sc : Screen) (analysis : pyval) :
  forallb (fun wd => negb (is_download wd)) (snd (summary_tab w analysis))
  = true
  /\ forallb (fun wd => negb (is_download wd))
             (snd (fields_section w analysis)) = true
  /\ forall entries,
       forallb (fun wd => negb (is_download wd))
               (snd (for_each entries (other_section w sc))) = true.
Proof.
  repeat split; intros;
    unfold summary_tab, fields_section, other_section,
      show_list, show_entries, markdown_text;
    result_widgets.
Qed.

Lemma no_download_written (ws : list widget) :
  forallb (fun wd => negb (is_download wd)) ws = true ->
  existsb is_download ws = false.
Proof.
  induction ws as [|x r IH]; [reflexivity|]. cbn [forallb existsb].
  intros H. apply andb_prop in H as [Hx Hr]. rewrite (IH Hr).
  now destruct (is_download x).
Qed.

Lemma display_results_failed_no_download
      (w : World) (sc : Screen) (results : pyval) (e : exn) :
  fst (display_results w sc results) = inl e ->
  existsb is_download (snd (display_results w sc results)) = false.
Proof.
  intros He. apply no_download_written. revert e He.
  unfold display_results.
  apply and_then_failed_all; [now destruct (truthy results)|].
  intros [|]; cbn [negb]; [|discriminate].
  apply and_then_failed_all; [reflexivity|]. intros result.
  apply and_then_failed_all; [reflexivity|]. intros _.
  apply and_then_failed_all; [reflexivity|]. intros document_type.
  apply and_then_failed_all; [reflexivity|]. intros _.
  apply and_then_failed_all; [reflexivity|]. intros analysis.
  apply and_then_failed_all; [reflexivity|]. intros _.
  apply and_then_failed_all;
    [apply (tabs_without_download w sc analysis)|]. intros _.
  apply and_then_failed_all;
    [apply (tabs_without_download w sc analysis)|]. intros _.
  apply and_then_failed_all; [reflexivity|]. intros entries.
  apply and_then_failed_all;
    [apply (tabs_without_download w sc analysis)|]. intros _.
  discriminate.
Qed.

(** The download button is the last thing [display_results] writes: when
    the button is on the screen, [display_results] has returned without an
    exception. *)
Theorem display_results_download_last
        (w : World) (sc : Screen) (results : pyval) :
  existsb is_download (snd (display_results w sc results)) = true ->
  fst (display_results w sc results) = inr tt.
Proof.
  intros H. destruct (fst (display_results w sc results)) as [e|[]] eqn:He;
    [|reflexivity].
  rewrite (display_results_failed_no_download w sc results e He) in H.
  discriminate.
Qed.

(** The record of a failed analysis. *)
Lemma display_results_download_last_example :
  fst (display_results
         (Script.world (inr []) []) plain_screen
         (run_record (PyStr (py "Passport"))
                     (PyDict [(py "error", PyStr (py "Expecting value"))])
                     (PyStr (py "doc_1"))))
  = inr tt.
Proof.
  apply display_results_download_last. vm_compute. reflexivity.
Defined.

(** A run of [main] that starts with the processing flag cleared, as
    lines 52-53 set it, ends with the flag cleared and does not show the
    message "Document analysis in progress...", whatever the upload, the
    click and the stored results. *)
Theorem main_keeps_flag_clear
        (w : World) (sc : Screen) (session : Session)
        (uploaded_file : option Upload) (clicked : bool) :
  session_processing session = false ->
  session_processing
    (session_after (main w sc session uploaded_file clicked)) = false
  /\ existsb is_info (written (main w sc session uploaded_file clicked))
     = false.
Proof.
  intros Hflag.
  assert (Htop : existsb is_info page_top = false) by reflexivity.
  assert (Hidle : uploaded_file = None \/ clicked = false ->
                  session_processing
                    (session_after (main w sc session uploaded_file clicked))
                  = false
                  /\ existsb is_info
                       (written (main w sc session uploaded_file clicked))
                     = false).
  { intros H. rewrite (main_idle w sc session uploaded_file clicked H).
    cbv zeta. unfold session_after, written. cbn [fst snd].
    split; [exact Hflag|]. rewrite Hflag.
    rewrite !existsb_app, Htop.
    rewrite (result_widgets_no_info _ (shown_results_writes w sc _)).
    destruct uploaded_file as [f|];
      match goal with
      | |- context [match ?x with inl _ => _ | inr _ => _ end] =>
          now destruct x
      end. }
  destruct uploaded_file as [f|]; [|now apply Hidle; left].
  destruct clicked; [|now apply Hidle; right].
  destruct (main_click w sc session f) as (r & s' & _ & _ & ->).
  unfold session_after, written. cbn [fst snd session_processing].
  split; [reflexivity|].
  rewrite !existsb_app, Htop. cbn [existsb is_info file_widgets orb].
  rewrite existsb_app, ran_no_info.
  now rewrite (result_widgets_no_info _ (shown_results_writes w sc _)).
Qed.

(** The first run of the page on a bill. *)
Lemma main_keeps_flag_clear_example :
  existsb is_info
    (written
       (main (Script.world
                (inr [Script.long_page])
                [inr (Script.body_with
                        (pyq "{\'class\': 1, \'category\': \'Utility bill\'}"));
                 inr (Script.body_with
                        (pyq "{\'summary\': \'A bill.\'}"))])
             plain_screen new_session
             (Some {| upload_name := py "bill.pdf";
                      upload_size_text := py "12.50 KB";
                      upload_bytes := [] |})
             true))
  = false.
Proof.
  apply (main_keeps_flag_clear
           (Script.world
              (inr [Script.long_page])
              [inr (Script.body_with
                      (pyq "{\'class\': 1, \'category\': \'Utility bill\'}"));
               inr (Script.body_with
                      (pyq "{\'summary\': \'A bill.\'}"))])
           plain_screen new_session
           (Some {| upload_name := py "bill.pdf";
                    upload_size_text := py "12.50 KB";
                    upload_bytes := [] |})
           true eq_refl).
Defined.

(** A click on "Analyze Document" with a scanned document: [main] shows
    what [is_scanned_pdf] wrote and the message about scanned documents,
    and nothing after them; the results of an earlier analysis are
    replaced by [None], so they are no longer displayed. *)
Theorem main_rejects_scanned_upload
        (w : World) (sc : Screen) (session : Session) (f : Upload) :
  scanned w (upload_bytes f) = true ->
  main w sc session (Some f) true
  = (inr tt,
     {| session_results := PyNone; session_processing := false |},
     page_top ++ file_widgets f
     ++ Spinner (py "Processing document...")
        :: map Ran (scan_events w (upload_bytes f)
                    ++ [StError scanned_message])).
Proof.
  intros Hs. unfold main, upload_section.
  rewrite (process_document_scanned_run _ _ _ Hs).
  cbn [log processing session_results session_processing truthy done app].
  unfold file_widgets. now rewrite !app_nil_r.
Qed.

(** A document of one page without text, uploaded to a session that holds
    the results of an earlier analysis. *)
Lemma main_rejects_scanned_upload_example :
  main (Script.world (inr [Script.blank_page]) [])
       plain_screen
       {| session_results :=
            run_record (PyStr (py "Passport"))
                       (PyDict [(py "summary", PyStr (py "A passport."))])
                       (PyStr (py "doc_1"));
          session_processing := false |}
       (Some {| upload_name := py "scan.pdf";
                upload_size_text := py "80.00 KB";
                upload_bytes := [] |})
       true
  = (inr tt,
     {| session_results := PyNone; session_processing := false |},
     page_top
     ++ [Write (py "File Details:")
               (PyDict [(py "Filename", PyStr (py "scan.pdf"));
                        (py "File size", PyStr (py "80.00 KB"))]);
         Button (py "Analyze Document");
         Spinner (py "Processing document...");
         Ran (StError scanned_message)]).
Proof.
  rewrite main_rejects_scanned_upload by reflexivity.
  reflexivity.
Defined.

(** Without an upload or without a click, [main] runs no analysis: the
    session is left as it was, nothing of a run is on the screen, and the
    run ends as the display of the stored results ends. *)
Theorem main_without_click
        (w : World) (sc : Screen) (session : Session)
        (uploaded_file : option Upload) (clicked : bool) :
  uploaded_file = None \/ clicked = false ->
  session_after (main w sc session uploaded_file clicked) = session
  /\ existsb is_ran (written (main w sc session uploaded_file clicked))
     = false
  /\ outcome (main w sc session uploaded_file clicked)
     = if truthy (session_results session)
       then fst (display_results w sc (session_results session))
       else inr tt.
Proof.
  intros H. rewrite (main_idle w sc session uploaded_file clicked H).
  cbv zeta. unfold session_after, written, outcome. cbn [fst snd].
  split; [reflexivity|]. split.
  - assert (Htop : existsb is_ran page_top = false) by reflexivity.
    rewrite !existsb_app, Htop.
    rewrite (result_widgets_no_run _ (shown_results_writes w sc _)).
    destruct uploaded_file as [f|];
      match goal with
      | |- context [match ?x with inl _ => _ | inr _ => _ end] =>
          destruct x
      end;
      now destruct (session_processing session).
  - now destruct (truthy (session_results session)).
Qed.

(** A later run of the page, with the file still in the uploader and the
    record of a failed analysis in the session. *)
Lemma main_without_click_example :
  session_after
    (main (Script.world (inr [Script.long_page]) [])
          plain_screen
          {| session_results :=
               run_record
                 (PyStr (py "Passport"))
                 (PyDict [(py "error", PyStr (py "Expecting value"))])
                 (PyStr (py "doc_1"));
             session_processing := false |}
          (Some {| upload_name := py "passport.pdf";
                   upload_size_text := py "12.50 KB";
                   upload_bytes := [] |})
          false)
  = {| session_results :=
         run_record
           (PyStr (py "Passport"))
           (PyDict [(py "error", PyStr (py "Expecting value"))])
           (PyStr (py "doc_1"));
       session_processing := false |}
  /\ existsb is_ran
       (written
          (main (Script.world (inr [Script.long_page]) [])
                plain_screen
                {| session_results :=
                     run_record
                       (PyStr (py "Passport"))
                       (PyDict [(py "error", PyStr (py "Expecting value"))])
                       (PyStr (py "doc_1"));
                   session_processing := false |}
                (Some {| upload_name := py "passport.pdf";
                         upload_size_text := py "12.50 KB";
                         upload_bytes := [] |})
                false))
     = false
  /\ outcome
       (main (Script.world (inr [Script.long_page]) [])
             plain_screen
             {| session_results :=
                  run_record
                    (PyStr (py "Passport"))
                    (PyDict [(py "error", PyStr (py "Expecting value"))])
                    (PyStr (py "doc_1"));
                session_processing := false |}
             (Some {| upload_name := py "passport.pdf";
                      upload_size_text := py "12.50 KB";
                      upload_bytes := [] |})
             false)
     = inr tt.
Proof.
  destruct (main_without_click
              (Script.world (inr [Script.long_page]) [])
              plain_screen
              {| session_results :=
                   run_record
                     (PyStr (py "Passport"))
                     (PyDict [(py "error", PyStr (py "Expecting value"))])
                     (PyStr (py "doc_1"));
                 session_processing := false |}
              (Some {| upload_name := py "passport.pdf";
                       upload_size_text := py "12.50 KB";
                       upload_bytes := [] |})
              false (or_intror eq_refl)) as (Hsession & Hran & Hout).
  split; [exact Hsession|]. split; [exact Hran|].
  rewrite Hout. reflexivity.
Defined.

(** [main] raises only in [display_results], after the results are stored
    in the session.  So the stored results are the ones the display fails
    on, and every later run of the page without a new analysis raises the
    same exception. *)
Theorem main_raises_only_from_display
        (w : World) (sc : Screen) (session : Session)
        (uploaded_file : option Upload) (clicked : bool) (e : exn) :
  outcome (main w sc session uploaded_file clicked) = inl e ->
  let session' := session_after (main w sc session uploaded_file clicked) in
  truthy (session_results session') = true
  /\ fst (display_results w sc (session_results session')) = inl e
  /\ forall later_upload,
       outcome (main w sc session' later_upload false) = inl e.
Proof.
  intros He. cbv zeta.
  assert (Hshown : forall results,
             fst (if truthy results then display_results w sc results
                  else done tt) = inl e ->
             truthy results = true
             /\ fst (display_results w sc results) = inl e).
  { intros results. destruct (truthy results); [tauto|discriminate]. }
  assert (Hlater : forall s,
             fst (if truthy (session_results s)
                  then display_results w sc (session_results s)
                  else done tt) = inl e ->
             forall later_upload,
               outcome (main w sc s later_upload false) = inl e).
  { intros s Hs later_upload.
    rewrite (main_idle w sc s later_upload false (or_intror eq_refl)).
    exact Hs. }
  assert (Hidle : uploaded_file = None \/ clicked = false ->
                  truthy (session_results
                            (session_after
                               (main w sc session uploaded_file clicked)))
                  = true
                  /\ fst (display_results w sc
                            (session_results
                               (session_after
                                  (main w sc session uploaded_file clicked))))
                     = inl e
                  /\ forall later_upload,
                       outcome
                         (main w sc
                               (session_after
                                  (main w sc session uploaded_file clicked))
                               later_upload false) = inl e).
  { intros H. revert He.
    rewrite (main_idle w sc session uploaded_file clicked H).
    cbv zeta. unfold outcome at 1, session_after. cbn [fst snd].
    intros He. destruct (Hshown _ He) as [Ht Hd].
    repeat split; [exact Ht|exact Hd|]. now apply Hlater. }
  destruct uploaded_file as [f|]; [|now apply Hidle; left].
  destruct clicked; [|now apply Hidle; right].
  revert He. destruct (main_click w sc session f) as (r & s' & _ & _ & ->).
  unfold outcome at 1, session_after. cbn [fst snd session_results].
  intros He. destruct (Hshown _ He) as [Ht Hd].
  repeat split; [exact Ht|exact Hd|]. now apply Hlater.
Qed.

(** A session that holds an analysis whose "validity" is a string. *)
Lemma main_raises_only_from_display_example :
  fst (display_results
         (Script.world (inr []) []) plain_screen
         (session_results
            (session_after
               (main (Script.world (inr []) []) plain_screen
                     {| session_results :=
                          run_record
                            (PyStr (py "Passport"))
                            (PyDict [(py "validity", PyStr (py "valid"))])
                            (PyStr (py "doc_1"));
                        session_processing := false |}
                     None false))))
  = inl (Exn "AttributeError" (py "'str' object has no attribute 'get'")).
Proof.
  refine (proj1 (proj2 (main_raises_only_from_display
                          (Script.world (inr []) []) plain_screen
                          {| session_results :=
                               run_record
                                 (PyStr (py "Passport"))
                                 (PyDict [(py "validity",
                                           PyStr (py "valid"))])
                                 (PyStr (py "doc_1"));
                             session_processing := false |}
                          None false
                          (Exn "AttributeError"
                               (py "'str' object has no attribute 'get'"))
                          _))).
  vm_compute. reflexivity.
Defined.

(** A click on "Analyze Document" starts from nothing: what [main] does
    with the upload does not depend on the session it finds, neither on the
    results of earlier analyses nor on the processing flag. *)
Theorem main_click_ignores_session
        (w : World) (sc : Screen) (session session' : Session) (f : Upload) :
  main w sc session (Some f) true = main w sc session' (Some f) true.
Proof.
  unfold main, upload_section.
  rewrite (process_document_ignores_flag
             w (upload_bytes f)
             (session_processing session) (session_processing session')).
  destruct (process_document_outcome
              w (upload_bytes f)
              {| processing := session_processing session'; log := [] |})
    as (r & s' & -> & _).
  reflexivity.
Qed.
